(** * Correlation filters of c7n_gcp: metrics and Security Command Center findings

    A shallow embedding of [c7n_gcp/filters/metrics.py] and
    [c7n_gcp/filters/sccfindings.py].  Python objects are a small JSON-like
    data type, dictionaries are insertion-ordered association lists (the
    order is observable through [list(d.values())[0]]), exceptions are an
    error monad, and the in-place mutation of a resource is explicit state
    passing: every function that writes to a resource returns the resource
    after the call together with its result. *)

From Stdlib Require Import List String Ascii Bool Arith Lia QArith.
Import ListNotations.
Open Scope string_scope.

(** ** Python objects *)

(** Numbers are carried by their exact value: Python compares an [int]
    with a [float] exactly, and the finite doubles are rationals.  NaN
    and the infinities, which JSON does not carry, are left out. *)
#[warnings="-register-all"] Inductive pyobj : Type :=
| PyNone
| PyBool (b : bool)
| PyNum (q : Q)
| PyStr (s : string)
| PyList (l : list pyobj)
| PyDict (d : list (string * pyobj)).

Inductive exn : Type :=
| KeyError
| IndexError
| TypeError
| ValueError
| AttributeError
| OverflowError
| LibraryError.

Inductive result (A : Type) : Type :=
| Ok (a : A)
| Raise (e : exn).

Arguments Ok {A} a.
Arguments Raise {A} e.

Definition bind {A B : Type} (c : result A) (k : A -> result B) : result B :=
  match c with
  | Ok a => k a
  | Raise e => Raise e
  end.

Declare Scope py_scope.
Delimit Scope py_scope with py.
Notation "x <- c ;; k" := (bind c (fun x => k))
  (at level 61, c at next level, right associativity) : py_scope.
Open Scope py_scope.

Definition raised {A : Type} (c : result A) : bool :=
  match c with
  | Ok _ => false
  | Raise _ => true
  end.

(** ** Dictionaries *)

Section Dict.
Context {K V : Type} (keq : K -> K -> bool).

(** [d.get(k)] *)
Fixpoint dict_get (d : list (K * V)) (k : K) : option V :=
  match d with
  | [] => None
  | (k', v) :: d' => if keq k' k then Some v else dict_get d' k
  end.

(** [d[k] = v]: an existing key keeps its place (and its key object),
    a new key goes last. *)
Fixpoint dict_set (d : list (K * V)) (k : K) (v : V) : list (K * V) :=
  match d with
  | [] => [(k, v)]
  | (k', v') :: d' =>
      if keq k' k then (k', v) :: d' else (k', v') :: dict_set d' k v
  end.

Definition dict_keys (d : list (K * V)) : list K := map fst d.
Definition dict_values (d : list (K * V)) : list V := map snd d.
End Dict.

(** A dictionary with string keys; a resource is one. *)
Definition pydict : Type := list (string * pyobj).
Definition resource : Type := pydict.

Definition rget (r : pydict) (k : string) : option pyobj :=
  dict_get String.eqb r k.

Definition rset (r : pydict) (k : string) (v : pyobj) : pydict :=
  dict_set String.eqb r k v.

(** [d[k]] on an option read from a typed configuration *)
Definition item {A : Type} (o : option A) : result A :=
  match o with
  | Some a => Ok a
  | None => Raise KeyError
  end.

(** [d.get(k, default)] *)
Definition get_default {A : Type} (o : option A) (default : A) : A :=
  match o with
  | Some a => a
  | None => default
  end.

(** [r.setdefault(k, default)]: the resource after the call and the
    object now stored under [k]. *)
Definition setdefault (r : pydict) (k : string) (default : pyobj)
  : pydict * pyobj :=
  match rget r k with
  | Some v => (r, v)
  | None => (rset r k default, default)
  end.

(** ** Python primitives used by the filters *)

(** [bool(v)] *)
Definition truthy (v : pyobj) : bool :=
  match v with
  | PyNone => false
  | PyBool b => b
  | PyNum q => negb (Qeq_bool q 0)
  | PyStr s => negb (String.eqb s "")
  | PyList l => match l with [] => false | _ => true end
  | PyDict d => match d with [] => false | _ => true end
  end.

(** [v[k]] for a string [k] *)
Definition getitem (v : pyobj) (k : string) : result pyobj :=
  match v with
  | PyDict d =>
      match dict_get String.eqb d k with
      | Some x => Ok x
      | None => Raise KeyError
      end
  | _ => Raise TypeError
  end.

(** [v[0]] *)
Definition getitem0 (v : pyobj) : result pyobj :=
  match v with
  | PyList (x :: _) => Ok x
  | PyList [] => Raise IndexError
  | PyStr (String c _) => Ok (PyStr (String c EmptyString))
  | PyStr EmptyString => Raise IndexError
  | PyDict _ => Raise KeyError
  | _ => Raise TypeError
  end.

(** [v[k] = x] for a string [k] *)
Definition setitem (v : pyobj) (k : string) (x : pyobj) : result pyobj :=
  match v with
  | PyDict d => Ok (PyDict (rset d k x))
  | _ => Raise TypeError
  end.

(** [v.extend(l)] *)
Definition extend (v : pyobj) (l : list pyobj) : result pyobj :=
  match v with
  | PyList l0 => Ok (PyList (l0 ++ l)%list)
  | _ => Raise AttributeError
  end.

(** [l.pop()] on a list, keeping the list that is left *)
Definition pop {A : Type} (l : list A) : result (list A) :=
  match l with
  | [] => Raise IndexError
  | _ => Ok (removelast l)
  end.

Fixpoint chars (s : string) : list pyobj :=
  match s with
  | EmptyString => []
  | String a s' => PyStr (String a EmptyString) :: chars s'
  end.

(** The objects a [for] loop over [v] visits. *)
Definition iterate (v : pyobj) : result (list pyobj) :=
  match v with
  | PyList l => Ok l
  | PyDict d => Ok (map PyStr (dict_keys d))
  | PyStr s => Ok (chars s)
  | _ => Raise TypeError
  end.

(** [list(v.values())] *)
Definition values (v : pyobj) : result (list pyobj) :=
  match v with
  | PyDict d => Ok (dict_values d)
  | _ => Raise AttributeError
  end.

(** [l[0]] on a list *)
Definition first {A : Type} (l : list A) : result A :=
  match l with
  | x :: _ => Ok x
  | [] => Raise IndexError
  end.

Definition hashable (v : pyobj) : bool :=
  match v with
  | PyList _ | PyDict _ => false
  | _ => true
  end.

(** Equality of dictionary keys: [True == 1 == 1.0]. *)
Definition key_num (v : pyobj) : option Q :=
  match v with
  | PyBool b => Some (if b then 1 else 0)%Q
  | PyNum q => Some q
  | _ => None
  end.

Definition key_eqb (a b : pyobj) : bool :=
  match a, b with
  | PyNone, PyNone => true
  | PyStr s, PyStr t => String.eqb s t
  | _, _ =>
      match key_num a, key_num b with
      | Some p, Some q => Qeq_bool p q
      | _, _ => false
      end
  end.

Definition Qlt_bool (x y : Q) : bool := negb (Qle_bool y x).

(** [operator.lt] on two numbers *)
Definition operator_lt (a b : Q) : result bool := Ok (Qlt_bool a b).

(** ** Strings *)

Definition dquote : string := String (ascii_of_nat 34) EmptyString.

Fixpoint join (sep : string) (l : list string) : string :=
  match l with
  | [] => ""
  | [x] => x
  | x :: l' => x ++ sep ++ join sep l'
  end.

(** [s.split(c)] for a one-character separator *)
Fixpoint split_char (c : ascii) (s : string) : list string :=
  match s with
  | EmptyString => [EmptyString]
  | String a s' =>
      if Ascii.eqb a c then EmptyString :: split_char c s'
      else match split_char c s' with
           | h :: t => String a h :: t
           | [] => [String a EmptyString]
           end
  end.

(** [s.split('/')[-1]] *)
Definition last_segment (s : string) : string :=
  last (split_char "/"%char s) EmptyString.

(** The part of [s] before the last occurrence of [sep], if there is one. *)
Fixpoint rfind_head (sep s : string) : option string :=
  match s with
  | EmptyString => None
  | String a s' =>
      match rfind_head sep s' with
      | Some h => Some (String a h)
      | None => if prefix sep s then Some EmptyString else None
      end
  end.

(** [s.rsplit(sep, 1)[0]] *)
Definition rsplit1_head (sep s : string) : string :=
  match rfind_head sep s with
  | Some h => h
  | None => s
  end.

(** ** Collaborators outside the two filters

    [jmespath.search], [str()] of a non-string object, [float()] of a
    number and of a string, [timedelta], the clock and the [datetime]
    arithmetic, the [OPERATORS] table and [ValueFilter.match] of
    [c7n.filters.core] are not part of the two source files: the filters
    are verified for every implementation of them.

    [float_of_num] is [float()] of a number: the number itself for a
    double, the nearest double or [OverflowError] for an integer.
    [py_timedelta] is [timedelta(days)], the duration it returns held in
    days.  [time_window] is lines 111-113 of [metrics.py]: from the
    duration, [end] read from the clock, [start = end - duration] and
    [period], the two instants held by their ISO form, the one use made
    of them. *)
Class Host : Type := {
  jmespath_search : string -> pyobj -> result pyobj;
  py_repr : pyobj -> string;
  float_of_num : Q -> result Q;
  float_of_str : string -> option Q;
  py_timedelta : Q -> result Q;
  time_window : Q -> result (string * string * string);
  OPERATORS : string -> option (Q -> Q -> result bool);
  ValueFilter_match : pydict -> list pyobj -> result bool
}.

(** ['{}'.format(v)] *)
Definition format_arg `{Host} (v : pyobj) : string :=
  match v with
  | PyStr s => s
  | _ => py_repr v
  end.

(** [float(v)].  A string that reads as NaN or as an infinity has no
    value among the numbers of the model. *)
Definition py_float `{Host} (v : pyobj) : result Q :=
  match v with
  | PyNum q => float_of_num q
  | PyBool b => Ok (if b then 1 else 0)%Q
  | PyStr s =>
      match float_of_str s with
      | Some q => Ok q
      | None => Raise ValueError
      end
  | _ => Raise TypeError
  end.

(** ** The metrics filter ([metrics.py]) *)

Module GCPMetricsFilter.

(** The filter's configuration, typed by its [schema]. *)
Record data : Type := {
  d_name : option string;
  d_resource_key : option string;
  d_metric_key : option string;
  d_group_by_fields : option (list string);
  d_days : option Q;
  d_op : option string;
  d_reducer : option string;
  d_aligner : option string;
  d_value : option Q;
  d_period : option Q;
  d_missing_value : option Q
}.

(** The attributes [process] sets on [self]; [end_] is [self.end]. *)
Record self : Type := {
  metric : string;
  resource_key : string;
  metric_key : string;
  aligner : string;
  reducer : string;
  group_by_fields : list string;
  missing_value : Q;
  end_ : string;
  start : string;
  period : string;
  resource_metric_dict : list (pyobj * pyobj);
  op : Q -> Q -> result bool;
  value : Q
}.

Definition with_resource_metric_dict (s : self) (d : list (pyobj * pyobj))
  : self :=
  {| metric := metric s;
     resource_key := resource_key s;
     metric_key := metric_key s;
     aligner := aligner s;
     reducer := reducer s;
     group_by_fields := group_by_fields s;
     missing_value := missing_value s;
     end_ := end_ s;
     start := start s;
     period := period s;
     resource_metric_dict := d;
     op := op s;
     value := value s |}.

Definition with_value (s : self) (v : Q) : self :=
  {| metric := metric s;
     resource_key := resource_key s;
     metric_key := metric_key s;
     aligner := aligner s;
     reducer := reducer s;
     group_by_fields := group_by_fields s;
     missing_value := missing_value s;
     end_ := end_ s;
     start := start s;
     period := period s;
     resource_metric_dict := resource_metric_dict s;
     op := op s;
     value := v |}.

Definition with_op (s : self) (f : Q -> Q -> result bool) : self :=
  {| metric := metric s;
     resource_key := resource_key s;
     metric_key := metric_key s;
     aligner := aligner s;
     reducer := reducer s;
     group_by_fields := group_by_fields s;
     missing_value := missing_value s;
     end_ := end_ s;
     start := start s;
     period := period s;
     resource_metric_dict := resource_metric_dict s;
     op := f;
     value := value s |}.

Section WithHost.
Context `{Host}.

(** Lines 101-116 of [process], in their order. *)
Definition configure (d : data) : result self :=
  duration <- py_timedelta (get_default (d_days d) 14%Q);;
  metric <- item (d_name d);;
  resource_key <- item (d_resource_key d);;
  metric_key <- item (d_metric_key d);;
  window <- time_window duration;;
  op <- item (OPERATORS (get_default (d_op d) "less-than"));;
  value <- item (d_value d);;
  Ok {| metric := metric;
        resource_key := resource_key;
        metric_key := metric_key;
        aligner := get_default (d_aligner d) "ALIGN_NONE";
        reducer := get_default (d_reducer d) "REDUCE_NONE";
        group_by_fields := get_default (d_group_by_fields d) [];
        missing_value := get_default (d_missing_value d) 0%Q;
        end_ := snd (fst window);
        start := fst (fst window);
        period := snd window;
        resource_metric_dict := [];
        op := op;
        value := value |}.

(** The loop of [get_query_filter]: one clause and one [' OR '] per
    resource, appended to [metric_filter]. *)
Fixpoint append_clauses (s : self) (resources : list resource)
  (metric_filter : string) : result string :=
  match resources with
  | [] => Ok metric_filter
  | r :: rs =>
      resource_name <- jmespath_search (resource_key s) (PyDict r);;
      append_clauses s rs
        (metric_filter ++ metric_key s ++ " = " ++ dquote
           ++ format_arg resource_name ++ dquote ++ " OR ")
  end.

Definition get_query_filter (s : self) (resources : list resource)
  : result string :=
  metric_filter <-
    append_clauses s resources
      ("metric.type = " ++ dquote ++ metric s ++ dquote ++ " AND ");;
  Ok (rsplit1_head " OR " metric_filter).

(** [self.resource_metric_dict[resource_name] = m] *)
Definition index_set (d : list (pyobj * pyobj)) (k m : pyobj)
  : result (list (pyobj * pyobj)) :=
  if hashable k then Ok (dict_set key_eqb d k m) else Raise TypeError.

(** [self.resource_metric_dict.get(resource_name)] *)
Definition index_get (d : list (pyobj * pyobj)) (k : pyobj)
  : result pyobj :=
  if hashable k then Ok (get_default (dict_get key_eqb d k) PyNone)
  else Raise TypeError.

Fixpoint split_by_resource (s : self) (metric_list : list pyobj)
  : result self :=
  match metric_list with
  | [] => Ok s
  | m :: ms =>
      resource_name <- jmespath_search (metric_key s) m;;
      d <- index_set (resource_metric_dict s) resource_name m;;
      split_by_resource (with_resource_metric_dict s d) ms
  end.

(** Line 160: the first value of the first point. *)
Definition first_point_value (metric : pyobj) : result Q :=
  points <- getitem metric "points";;
  point <- getitem0 points;;
  v <- getitem point "value";;
  vs <- values v;;
  x <- first vs;;
  py_float x.

Definition c7n_metric_key (s : self) : string :=
  metric s ++ "." ++ aligner s ++ "." ++ reducer s.

(** Lines 155-160: the correlated record and the observed value. *)
Definition observe (s : self) (r : resource) : result (pyobj * Q) :=
  resource_name <- jmespath_search (resource_key s) (PyDict r);;
  metric <- index_get (resource_metric_dict s) resource_name;;
  metric_value <-
    (if negb (truthy metric) then Ok (missing_value s)
     else first_point_value metric);;
  Ok (metric, metric_value).

(** The resource after the call, and what the call returns or
    raises. *)
Definition process_resource (s : self) (r : resource)
  : resource * result bool :=
  let '(r1, resource_metric) := setdefault r "c7n.metrics" (PyDict []) in
  match observe s r1 with
  | Raise e => (r1, Raise e)
  | Ok (metric, metric_value) =>
      match setitem resource_metric (c7n_metric_key s) metric with
      | Raise e => (r1, Raise e)
      | Ok resource_metric' =>
          (rset r1 "c7n.metrics" resource_metric',
           op s metric_value (value s))
      end
  end.

(** [[r for r in resources if self.process_resource(r)]]: the
    resources after the loop, and the matched ones. *)
Fixpoint matched (s : self) (resources : list resource)
  : list resource * result (list resource) :=
  match resources with
  | [] => ([], Ok [])
  | r :: rs =>
      let '(r', b) := process_resource s r in
      match b with
      | Raise e => (r' :: rs, Raise e)
      | Ok b =>
          let '(rs', m) := matched s rs in
          (r' :: rs',
           match m with
           | Ok m => Ok (if b then r' :: m else m)
           | Raise e => Raise e
           end)
      end
  end.

(** [process], with the monitoring client as a function from the
    query filter to its response; the interval and the aggregation of
    the query are those [self] holds. *)
Definition process (d : data) (client : string -> result pyobj)
  (resources : list resource) : list resource * result (list resource) :=
  match
    (s <- configure d;;
     query_filter <- get_query_filter s resources;;
     metric_list <- client query_filter;;
     time_series <- getitem metric_list "timeSeries";;
     ms <- iterate time_series;;
     split_by_resource s ms)
  with
  | Raise e => (resources, Raise e)
  | Ok s => matched s resources
  end.
End WithHost.
End GCPMetricsFilter.

(** ** The findings filter ([sccfindings.py]) *)

Module SecurityComandCenterFindingsFilter.

(** [data] is the filter's configuration dictionary (its schema is
    inherited from [ValueFilter]); [name] is
    [self.manager.resource_type.name]. *)
Record self : Type := {
  data : pydict;
  name : string;
  findings_by_resource : list (string * list pyobj)
}.

Definition with_findings_by_resource (s : self)
  (d : list (string * list pyobj)) : self :=
  {| data := data s; name := name s; findings_by_resource := d |}.

Definition with_data (s : self) (d : pydict) : self :=
  {| data := d;
     name := name s;
     findings_by_resource := findings_by_resource s |}.

Section WithHost.
Context `{Host}.

(** The loop of [get_resource_filter]. *)
Fixpoint append_clauses (s : self) (resources : list resource)
  (resource_filter : list string) : result (list string) :=
  match resources with
  | [] => Ok resource_filter
  | r :: rs =>
      v <- getitem (PyDict r) (name s);;
      append_clauses s rs
        (app
           (app resource_filter
              ["resourceName:" ++ dquote ++ format_arg v ++ dquote])
           [" OR "])
  end.

Definition get_resource_filter (s : self) (resources : list resource)
  : result string :=
  resource_filter <- append_clauses s resources [];;
  resource_filter <- pop resource_filter;;
  Ok (join "" resource_filter).

(** [f["finding"]["resourceName"].split('/')[-1]] *)
Definition finding_resource_name (f : pyobj) : result string :=
  finding <- getitem f "finding";;
  resource_name <- getitem finding "resourceName";;
  match resource_name with
  | PyStr n => Ok (last_segment n)
  | _ => Raise AttributeError
  end.

Fixpoint split_by_resource (s : self) (finding_list : list pyobj)
  : result self :=
  match finding_list with
  | [] => Ok s
  | f :: fs =>
      resource_name <- finding_resource_name f;;
      let resource_findings :=
        get_default
          (dict_get String.eqb (findings_by_resource s) resource_name) []
      in
      split_by_resource
        (with_findings_by_resource s
           (dict_set String.eqb (findings_by_resource s) resource_name
              (resource_findings ++ [f])%list))
        fs
  end.

(** [self.findings_by_resource.get(resource_name, [])] *)
Definition index_get (d : list (string * list pyobj)) (k : pyobj)
  : result (list pyobj) :=
  match k with
  | PyStr n => Ok (get_default (dict_get String.eqb d n) [])
  | PyList _ | PyDict _ => Raise TypeError
  | _ => Ok []
  end.

(** Lines 72-73. *)
Definition correlated (s : self) (r : resource) : result (list pyobj) :=
  resource_name <- getitem (PyDict r) (name s);;
  index_get (findings_by_resource s) resource_name.

Definition process_resource (s : self) (r : resource)
  : resource * result bool :=
  match correlated s r with
  | Raise e => (r, Raise e)
  | Ok resource_findings =>
      let '(r1, l) := setdefault r "c7n.findings" (PyList []) in
      match extend l resource_findings with
      | Raise e => (r1, Raise e)
      | Ok l' =>
          (rset r1 "c7n.findings" l',
           if negb (truthy (get_default (rget (data s) "key") PyNone))
           then Ok (0 <? List.length resource_findings)%nat
           else ValueFilter_match (data s) resource_findings)
      end
  end.

Fixpoint matched (s : self) (resources : list resource)
  : list resource * result (list resource) :=
  match resources with
  | [] => ([], Ok [])
  | r :: rs =>
      let '(r', b) := process_resource s r in
      match b with
      | Raise e => (r' :: rs, Raise e)
      | Ok b =>
          let '(rs', m) := matched s rs in
          (r' :: rs',
           match m with
           | Ok m => Ok (if b then r' :: m else m)
           | Raise e => Raise e
           end)
      end
  end.

(** [findings_list.get('listFindingsResults')] and the replacement of
    a falsy result by an empty list (lines 46-49). *)
Definition list_findings_results (findings_list : pyobj)
  : result (list pyobj) :=
  match findings_list with
  | PyDict d =>
      let results := get_default (rget d "listFindingsResults") PyNone in
      if negb (truthy results) then Ok [] else iterate results
  | _ => Raise AttributeError
  end.

(** [process], with the Security Command Center client as a function
    from the parent and the filter to its response. *)
Definition process (s : self) (client : string -> string -> result pyobj)
  (resources : list resource) : list resource * result (list resource) :=
  match
    (resource_filter <- get_resource_filter s resources;;
     org <- getitem (PyDict (data s)) "org";;
     findings_list <-
       client ("organizations/" ++ format_arg org ++ "/sources/-")
         resource_filter;;
     fs <- list_findings_results findings_list;;
     split_by_resource (with_findings_by_resource s []) fs)
  with
  | Raise e => (resources, Raise e)
  | Ok s => matched s resources
  end.
End WithHost.
End SecurityComandCenterFindingsFilter.

(** ** Shapes of records the evaluator can meet *)

(** A record without the first value of a first point: it has no
    ['points'], or an empty ['points'] list, or a first point without
    ['value'], or a first point with an empty ['value'] mapping. *)
Inductive malformed : pyobj -> Prop :=
| no_points (d : pydict) :
    rget d "points" = None -> malformed (PyDict d)
| no_first_point (d : pydict) :
    rget d "points" = Some (PyList []) -> malformed (PyDict d)
| no_value (d p : pydict) (ps : list pyobj) :
    rget d "points" = Some (PyList (PyDict p :: ps)) ->
    rget p "value" = None -> malformed (PyDict d)
| no_first_value (d p : pydict) (ps : list pyobj) :
    rget d "points" = Some (PyList (PyDict p :: ps)) ->
    rget p "value" = Some (PyDict []) -> malformed (PyDict d).

(** The container the threshold filter writes to is absent or a
    dictionary; the one of the match filter is absent or a list. *)
Definition metrics_container_ok (r : resource) : bool :=
  match rget r "c7n.metrics" with
  | None | Some (PyDict _) => true
  | _ => false
  end.

Definition findings_container_ok (r : resource) : bool :=
  match rget r "c7n.findings" with
  | None | Some (PyList _) => true
  | _ => false
  end.

Definition findings_annotation (r : resource) : option (list pyobj) :=
  match rget r "c7n.findings" with
  | Some (PyList l) => Some l
  | _ => None
  end.

Definition metrics_annotation (r : resource) (k : string) : option pyobj :=
  match rget r "c7n.metrics" with
  | Some (PyDict d) => rget d k
  | _ => None
  end.

Definition metrics_annotation_keys (r : resource) : list string :=
  match rget r "c7n.metrics" with
  | Some (PyDict d) => dict_keys d
  | _ => []
  end.

(** ** One implementation of the collaborators

    Enough of them for the policies of [tests/test_filters.py]: paths of
    dotted field names, [str()] of [None] and of the booleans, [float()]
    of a double and of a string of digits, [timedelta] within its range
    of 999999999 days, a clock stopped on 15 January 2021 that reaches
    back the 14 days the tests ask for, and the comparison entries of
    [OPERATORS]. *)

Fixpoint lookup_path (path : list string) (v : pyobj) : pyobj :=
  match path with
  | [] => v
  | k :: path' =>
      match v with
      | PyDict d =>
          match rget d k with
          | Some x => lookup_path path' x
          | None => PyNone
          end
      | _ => PyNone
      end
  end.

Definition dotted_search (expression : string) (v : pyobj) : result pyobj :=
  Ok (lookup_path (split_char "."%char expression) v).

Definition digit_of (a : ascii) : option Z :=
  let n := nat_of_ascii a in
  if ((48 <=? n) && (n <=? 57))%nat then Some (Z.of_nat (n - 48)) else None.

Fixpoint digits_value (s : string) (acc : Z) : option Z :=
  match s with
  | EmptyString => Some acc
  | String a s' =>
      match digit_of a with
      | Some d => digits_value s' (10 * acc + d)
      | None => None
      end
  end.

Definition float_of_digits (s : string) : option Q :=
  match s with
  | EmptyString => None
  | _ => option_map inject_Z (digits_value s 0)
  end.

Definition comparison_operators (name : string)
  : option (Q -> Q -> result bool) :=
  if (name =? "less-than") || (name =? "lt") then Some operator_lt
  else if (name =? "greater-than") || (name =? "gt")
  then Some (fun a b => Ok (Qlt_bool b a))
  else if (name =? "lte") || (name =? "le")
  then Some (fun a b => Ok (Qle_bool a b))
  else if (name =? "gte") || (name =? "ge")
  then Some (fun a b => Ok (Qle_bool b a))
  else if (name =? "equal") || (name =? "eq")
  then Some (fun a b => Ok (Qeq_bool a b))
  else if (name =? "not-equal") || (name =? "ne")
  then Some (fun a b => Ok (negb (Qeq_bool a b)))
  else None.

Definition plain_host : Host := {|
  jmespath_search := dotted_search;
  py_repr := fun v =>
    match v with
    | PyNone => "None"
    | PyBool true => "True"
    | PyBool false => "False"
    | _ => "<object>"
    end;
  float_of_num := fun q => Ok q;
  float_of_str := float_of_digits;
  py_timedelta := fun days =>
    if Qle_bool (-999999999) days && Qle_bool days 999999999 then Ok days
    else Raise OverflowError;
  time_window := fun duration =>
    if Qeq_bool duration 14
    then Ok ("2021-01-01T00:00:00+00:00", "2021-01-15T00:00:00+00:00",
             "1209600.0s")
    else Raise OverflowError;
  OPERATORS := comparison_operators;
  ValueFilter_match := fun _ _ => Raise LibraryError
|}.

(** The policy of [test_metrics]. *)
Definition cpu_policy : GCPMetricsFilter.data := {|
  GCPMetricsFilter.d_name :=
    Some "compute.googleapis.com/instance/cpu/utilization";
  GCPMetricsFilter.d_resource_key := Some "name";
  GCPMetricsFilter.d_metric_key := Some "metric.labels.instance_name";
  GCPMetricsFilter.d_group_by_fields := None;
  GCPMetricsFilter.d_days := Some 14;
  GCPMetricsFilter.d_op := Some "less-than";
  GCPMetricsFilter.d_reducer := None;
  GCPMetricsFilter.d_aligner := Some "ALIGN_MEAN";
  GCPMetricsFilter.d_value := Some (1 # 10);
  GCPMetricsFilter.d_period := None;
  GCPMetricsFilter.d_missing_value := None
|}.

Definition cpu_filter : GCPMetricsFilter.self := {|
  GCPMetricsFilter.metric := "compute.googleapis.com/instance/cpu/utilization";
  GCPMetricsFilter.resource_key := "name";
  GCPMetricsFilter.metric_key := "metric.labels.instance_name";
  GCPMetricsFilter.aligner := "ALIGN_MEAN";
  GCPMetricsFilter.reducer := "REDUCE_NONE";
  GCPMetricsFilter.group_by_fields := [];
  GCPMetricsFilter.missing_value := 0;
  GCPMetricsFilter.end_ := "2021-01-15T00:00:00+00:00";
  GCPMetricsFilter.start := "2021-01-01T00:00:00+00:00";
  GCPMetricsFilter.period := "1209600.0s";
  GCPMetricsFilter.resource_metric_dict := [];
  GCPMetricsFilter.op := operator_lt;
  GCPMetricsFilter.value := 1 # 10
|}.

Definition cpu_key : string :=
  "compute.googleapis.com/instance/cpu/utilization.ALIGN_MEAN.REDUCE_NONE".

Definition vm (n : string) : resource := [("name", PyStr n)].

Definition series (n : string) (fields : pydict) : pyobj :=
  PyDict
    (("metric", PyDict [("labels", PyDict [("instance_name", PyStr n)])])
       :: fields).

Definition point (v : pyobj) : pyobj := PyDict [("value", v)].

Definition cpu_series (n : string) (q : Q) : pyobj :=
  series n [("points", PyList [point (PyDict [("doubleValue", PyNum q)])])].

(** The index of [cpu_filter] after these records were fetched: one
    well-formed series, one without points, and an empty record whose
    key does not resolve. *)
Definition cpu_index : list (pyobj * pyobj) :=
  [(PyStr "vm-1", cpu_series "vm-1" 0.05);
   (PyStr "vm-3", series "vm-3" []);
   (PyNone, PyDict [])].

Definition cpu_filter_fetched : GCPMetricsFilter.self :=
  GCPMetricsFilter.with_resource_metric_dict cpu_filter cpu_index.

Definition bucket_filter : SecurityComandCenterFindingsFilter.self := {|
  SecurityComandCenterFindingsFilter.data := [("org", PyNum 1234)];
  SecurityComandCenterFindingsFilter.name := "name";
  SecurityComandCenterFindingsFilter.findings_by_resource := []
|}.

Definition finding (resource_name category : string) : pyobj :=
  PyDict
    [("finding",
      PyDict [("resourceName", PyStr resource_name);
              ("category", PyStr category)])].

Definition bucket_filter_fetched : SecurityComandCenterFindingsFilter.self :=
  SecurityComandCenterFindingsFilter.with_findings_by_resource bucket_filter
    [("bucket-1", [finding "//storage.googleapis.com/bucket-1" "X"])].

(** ** Notions the statements use *)

Section Correlation.
Context `{Host}.

(** The record [m] bears the key [k] under the path [metric_key]. *)
Definition bears_key (metric_key : string) (k m : pyobj) : bool :=
  match jmespath_search metric_key m with
  | Ok k' => key_eqb k' k
  | Raise _ => false
  end.

(** The last record of [ms], in fetch order, that bears [k]. *)
Fixpoint last_bearing (metric_key : string) (k : pyobj) (ms : list pyobj)
  : option pyobj :=
  match ms with
  | [] => None
  | m :: ms' =>
      match last_bearing metric_key k ms' with
      | Some x => Some x
      | None => if bears_key metric_key k m then Some m else None
      end
  end.

(** One clause of the monitoring query filter. *)
Definition query_clause (s : GCPMetricsFilter.self) (k : pyobj) : string :=
  GCPMetricsFilter.metric_key s ++ " = " ++ dquote ++ format_arg k ++ dquote.

Definition query_head (s : GCPMetricsFilter.self) : string :=
  "metric.type = " ++ dquote ++ GCPMetricsFilter.metric s ++ dquote
    ++ " AND ".

(** Lines 76-79: what the match evaluator returns once the findings of
    the resource are known. *)
Definition findings_decision (s : SecurityComandCenterFindingsFilter.self)
  (resource_findings : list pyobj) : result bool :=
  if negb
       (truthy
          (get_default
             (rget (SecurityComandCenterFindingsFilter.data s) "key")
             PyNone))
  then Ok (0 <? List.length resource_findings)%nat
  else ValueFilter_match (SecurityComandCenterFindingsFilter.data s)
         resource_findings.

(** One clause of the findings filter. *)
Definition resource_clause (v : pyobj) : string :=
  "resourceName:" ++ dquote ++ format_arg v ++ dquote.
End Correlation.

(** The findings of [fs], in fetch order, whose resource name is [n]. *)
Definition findings_of (n : string) (fs : list pyobj) : list pyobj :=
  filter
    (fun f =>
       match SecurityComandCenterFindingsFilter.finding_resource_name f with
       | Ok n' => n' =? n
       | Raise _ => false
       end)
    fs.

(** [index.get(n, [])] *)
Definition findings_lookup (d : list (string * list pyobj)) (n : string)
  : list pyobj :=
  get_default (dict_get String.eqb d n) [].

(** [sum(len(v) for v in index.values())] *)
Definition total_findings (d : list (string * list pyobj)) : nat :=
  list_sum (map (fun e => List.length (snd e)) d).

(** ** The rest of the two files *)

(** [REDUCERS] and [ALIGNERS], lines 16-52 of [metrics.py], as they
    are written there. *)
Definition REDUCERS : list string :=
  ["REDUCE_NONE"; "REDUCE_MEAN"; "REDUCE_MIN"; "REDUCE_MAX"; "REDUCE_MEAN";
   "REDUCE_SUM"; "REDUCE_STDDEV"; "REDUCE_COUNT"; "REDUCE_COUNT_TRUE";
   "REDUCE_COUNT_FALSE"; "REDUCE_FRACTION_TRUE"; "REDUCE_PERCENTILE_99";
   "REDUCE_PERCENTILE_95"; "REDUCE_PERCENTILE_50"; "REDUCE_PERCENTILE_05"].

Definition ALIGNERS : list string :=
  ["ALIGN_NONE"; "ALIGN_DELTA"; "ALIGN_RATE"; "ALIGN_INTERPOLATE";
   "ALIGN_MIN"; "ALIGN_MAX"; "ALIGN_MEAN"; "ALIGN_COUNT"; "ALIGN_SUM";
   "REDUCE_COUNT_FALSE"; "ALIGN_STDDEV"; "ALIGN_COUNT_TRUE";
   "ALIGN_COUNT_FALSE"; "ALIGN_FRACTION_TRUE"; "ALIGN_PERCENTILE_99";
   "ALIGN_PERCENTILE_95"; "ALIGN_PERCENTILE_50"; "ALIGN_PERCENTILE_05";
   "ALIGN_PERCENT_CHANG"].

(** [c in s] for a character *)
Fixpoint has_char (c : ascii) (s : string) : bool :=
  match s with
  | EmptyString => false
  | String a s' => Ascii.eqb a c || has_char c s'
  end.

Section Runs.
Context `{Host}.

(** The resources of a run of the threshold filter after it, and the
    ones it retains, resource by resource. *)
Definition metrics_annotated (s : GCPMetricsFilter.self)
  (rs : list resource) : list resource :=
  map (fun r => fst (GCPMetricsFilter.process_resource s r)) rs.

Definition metrics_retained (s : GCPMetricsFilter.self)
  (rs : list resource) : list resource :=
  flat_map
    (fun r =>
       match GCPMetricsFilter.process_resource s r with
       | (r', Ok true) => [r']
       | _ => []
       end)
    rs.

Definition findings_annotated (s : SecurityComandCenterFindingsFilter.self)
  (rs : list resource) : list resource :=
  map (fun r => fst (SecurityComandCenterFindingsFilter.process_resource s r))
    rs.
End Runs.

(** A series whose first value is a distribution. *)
Definition distribution_series (n : string) : pyobj :=
  series n
    [("points",
      PyList [point (PyDict [("distributionValue",
                              PyDict [("count", PyStr "12")])])])].

(** The first value of the first point of a record that has one. *)
Definition first_value (metric : pyobj) : option pyobj :=
  match metric with
  | PyDict d =>
      match rget d "points" with
      | Some (PyList (PyDict p :: _)) =>
          match rget p "value" with
          | Some (PyDict ((_, v) :: _)) => Some v
          | _ => None
          end
      | _ => None
      end
  | _ => None
  end.

(** * Properties *)

(** ** Strings *)

Lemma append_assoc (a b c : string) : (a ++ b) ++ c = a ++ b ++ c.
Proof.
  induction a as [|x a IH]; simpl; [reflexivity | now rewrite IH].
Qed.

Lemma append_empty_r (a : string) : a ++ "" = a.
Proof.
  induction a as [|x a IH]; simpl; [reflexivity | now rewrite IH].
Qed.

Lemma prefix_length (a b : string) :
  prefix a b = true -> (String.length a <= String.length b)%nat.
Proof.
  revert b; induction a as [|x a IH]; intros [|y b]; simpl;
    try lia; try discriminate.
  destruct (ascii_dec x y); [|discriminate].
  intros Hp; apply IH in Hp; lia.
Qed.

Lemma prefix_self (a : string) : prefix a a = true.
Proof.
  induction a as [|x a IH]; simpl; [reflexivity|].
  destruct (ascii_dec x x); [exact IH | congruence].
Qed.

Lemma prefix_append (a b : string) : prefix a (a ++ b) = true.
Proof.
  induction a as [|x a IH]; simpl; [now destruct b|].
  destruct (ascii_dec x x); [exact IH | congruence].
Qed.

Lemma rfind_head_length (sep s h : string) :
  rfind_head sep s = Some h -> (String.length sep <= String.length s)%nat.
Proof.
  revert h; induction s as [|x s IH]; intros h; [discriminate|].
  cbn [rfind_head].
  destruct (rfind_head sep s) as [h'|].
  - intros _. specialize (IH h' eq_refl). simpl. lia.
  - destruct (prefix sep (String x s)) eqn:Hp; [|discriminate].
    intros _. now apply prefix_length.
Qed.

(** The last occurrence of a separator the string ends with is that
    ending. *)
Lemma rfind_head_append (sep s : string) :
  sep <> "" -> rfind_head sep (s ++ sep) = Some s.
Proof.
  intros Hsep. induction s as [|x s IH].
  - destruct sep as [|y sep]; [congruence|].
    cbn [append rfind_head].
    destruct (rfind_head (String y sep) sep) as [h|] eqn:Hr.
    + apply rfind_head_length in Hr. simpl in Hr. lia.
    + now rewrite prefix_self.
  - cbn [append rfind_head]. now rewrite IH.
Qed.

Lemma rsplit1_head_append (sep s : string) :
  sep <> "" -> rsplit1_head sep (s ++ sep) = s.
Proof.
  intros Hsep. unfold rsplit1_head. now rewrite rfind_head_append.
Qed.

Lemma join_empty_cons (x : string) (l : list string) :
  join "" (x :: l) = x ++ join "" l.
Proof.
  destruct l; cbn [join append]; [now rewrite append_empty_r | reflexivity].
Qed.

(** Clauses that each carry a trailing separator are, up to the last
    separator, the clauses joined by the separator. *)
Lemma join_trailing (sep : string) (c : string) (cs : list string) :
  join "" (map (fun x => x ++ sep) (c :: cs)) = join sep (c :: cs) ++ sep.
Proof.
  revert c; induction cs as [|c' cs IH]; intros c.
  - reflexivity.
  - cbn [map]. rewrite join_empty_cons. cbn [map] in IH. rewrite IH.
    cbn [join]. now rewrite !append_assoc.
Qed.

Lemma join_interleaved (sep : string) (c : string) (cs : list string) :
  join "" (removelast (flat_map (fun x => [x; sep]) (c :: cs)))
  = join sep (c :: cs).
Proof.
  revert c; induction cs as [|c' cs IH]; intros c.
  - reflexivity.
  - specialize (IH c').
    cbn [flat_map app] in IH |- *.
    remember (flat_map (fun x => [x; sep]) cs) as rest.
    change (join "" (c :: sep :: c' :: removelast (sep :: rest))
            = c ++ sep ++ join sep (c' :: cs)).
    change (join "" (c' :: removelast (sep :: rest)) = join sep (c' :: cs))
      in IH.
    rewrite <- IH. reflexivity.
Qed.

(** ** The filter-expression builders *)

Section Builders.
Context `{Host}.

Lemma metrics_append_clauses_ok (s : GCPMetricsFilter.self)
  (rs : list resource) (ks : list pyobj) (acc : string) :
  Forall2
    (fun r k =>
       jmespath_search (GCPMetricsFilter.resource_key s) (PyDict r) = Ok k)
    rs ks ->
  GCPMetricsFilter.append_clauses s rs acc
  = Ok (acc ++ join "" (map (fun c => c ++ " OR ")
                          (map (query_clause s) ks))).
Proof.
  intros Hks; revert acc.
  induction Hks as [|r k rs ks Hk _ IH]; intros acc.
  - cbn. now rewrite append_empty_r.
  - cbn [GCPMetricsFilter.append_clauses]. rewrite Hk. cbn [bind].
    rewrite IH. cbn [map]. rewrite join_empty_cons.
    unfold query_clause. now rewrite !append_assoc.
Qed.

(** X1.  With one resource or more, whose keys all resolve, the
    monitoring filter is the type clause followed by one clause per
    resource, in resource order and joined by [' OR ']; equal keys are
    not merged. *)
Lemma get_query_filter_nonempty (s : GCPMetricsFilter.self)
  (r : resource) (rs : list resource) (k : pyobj) (ks : list pyobj) :
  Forall2
    (fun r k =>
       jmespath_search (GCPMetricsFilter.resource_key s) (PyDict r) = Ok k)
    (r :: rs) (k :: ks) ->
  GCPMetricsFilter.get_query_filter s (r :: rs)
  = Ok (query_head s ++ join " OR " (map (query_clause s) (k :: ks))).
Proof.
  intros Hks. unfold GCPMetricsFilter.get_query_filter.
  rewrite (metrics_append_clauses_ok s _ _ _ Hks). cbn [bind].
  change (map (query_clause s) (k :: ks))
    with (query_clause s k :: map (query_clause s) ks).
  rewrite join_trailing, <- append_assoc.
  rewrite rsplit1_head_append by discriminate.
  reflexivity.
Qed.

Lemma findings_append_clauses_ok
  (s : SecurityComandCenterFindingsFilter.self)
  (rs : list resource) (vs : list pyobj) (acc : list string) :
  Forall2
    (fun r v =>
       getitem (PyDict r) (SecurityComandCenterFindingsFilter.name s) = Ok v)
    rs vs ->
  SecurityComandCenterFindingsFilter.append_clauses s rs acc
  = Ok (app acc (flat_map (fun c => [c; " OR "]) (map resource_clause vs))).
Proof.
  intros Hvs; revert acc.
  induction Hvs as [|r v rs vs Hv _ IH]; intros acc.
  - cbn. now rewrite app_nil_r.
  - cbn [SecurityComandCenterFindingsFilter.append_clauses].
    rewrite Hv. cbn [bind]. rewrite IH. cbn [map flat_map].
    now rewrite <- !app_assoc.
Qed.

(** X2.  With one resource or more, each having the name field, the
    findings filter is one clause per resource, in resource order and
    joined by [' OR ']. *)
Lemma get_resource_filter_nonempty
  (s : SecurityComandCenterFindingsFilter.self)
  (r : resource) (rs : list resource) (v : pyobj) (vs : list pyobj) :
  Forall2
    (fun r v =>
       getitem (PyDict r) (SecurityComandCenterFindingsFilter.name s) = Ok v)
    (r :: rs) (v :: vs) ->
  SecurityComandCenterFindingsFilter.get_resource_filter s (r :: rs)
  = Ok (join " OR " (map resource_clause (v :: vs))).
Proof.
  intros Hvs. unfold SecurityComandCenterFindingsFilter.get_resource_filter.
  rewrite (findings_append_clauses_ok s _ _ _ Hvs). cbn [bind app].
  change (map resource_clause (v :: vs))
    with (resource_clause v :: map resource_clause vs).
  rewrite <- join_interleaved.
  reflexivity.
Qed.
End Builders.

(** C1.  The builders at a resource list of size 0: the monitoring
    filter is what [rsplit] leaves of the type clause, which for the
    metric of the tests is the clause with its trailing [' AND ']; the
    findings filter raises [IndexError] from [pop].  A join of zero
    clauses that leaves no dangling operator is not what either returns. *)
Theorem builders_at_no_resources :
  (forall (H : Host) (s : GCPMetricsFilter.self),
      GCPMetricsFilter.get_query_filter s []
      = Ok (rsplit1_head " OR " (query_head s)))
  /\ @GCPMetricsFilter.get_query_filter plain_host cpu_filter []
     = Ok ("metric.type = " ++ dquote
             ++ "compute.googleapis.com/instance/cpu/utilization" ++ dquote
             ++ " AND ")
  /\ (forall (H : Host) (s : SecurityComandCenterFindingsFilter.self),
         SecurityComandCenterFindingsFilter.get_resource_filter s []
         = Raise IndexError).
Proof.
  split; [|split].
  - intros H s. reflexivity.
  - vm_compute. reflexivity.
  - intros H s. reflexivity.
Qed.

(** ** Dictionaries *)

Section DictFacts.
Context {K V : Type} (keq : K -> K -> bool).
Hypothesis keq_sym : forall a b, keq a b = keq b a.
Hypothesis keq_trans :
  forall a b c, keq a b = true -> keq b c = true -> keq a c = true.

Lemma dict_get_set (d : list (K * V)) (k k' : K) (v : V) :
  dict_get keq (dict_set keq d k v) k'
  = if keq k k' then Some v else dict_get keq d k'.
Proof.
  induction d as [|[k0 v0] d IH]; cbn [dict_set dict_get].
  - reflexivity.
  - destruct (keq k0 k) eqn:E0; cbn [dict_get].
    + destruct (keq k0 k') eqn:E1.
      * rewrite keq_sym in E0. now rewrite (keq_trans _ _ _ E0 E1).
      * destruct (keq k k') eqn:E2; [|reflexivity].
        now rewrite (keq_trans _ _ _ E0 E2) in E1.
    + rewrite IH. destruct (keq k0 k') eqn:E1; [|reflexivity].
      destruct (keq k k') eqn:E2; [|reflexivity].
      rewrite keq_sym in E2. now rewrite (keq_trans _ _ _ E1 E2) in E0.
Qed.

Lemma dict_set_set (d : list (K * V)) (k : K) (v v' : V) :
  keq k k = true ->
  dict_set keq (dict_set keq d k v) k v' = dict_set keq d k v'.
Proof.
  intros Hk. induction d as [|[k0 v0] d IH]; cbn [dict_set].
  - now rewrite Hk.
  - destruct (keq k0 k) eqn:E0; cbn [dict_set]; rewrite E0;
      [reflexivity | now rewrite IH].
Qed.

Lemma dict_keys_set_present (d : list (K * V)) (k : K) (v x : V) :
  dict_get keq d k = Some x ->
  dict_keys (dict_set keq d k v) = dict_keys d.
Proof.
  induction d as [|[k0 v0] d IH]; cbn [dict_set dict_get]; [discriminate|].
  destruct (keq k0 k); [reflexivity|].
  intros Hd. unfold dict_keys in *. cbn [map fst]. now rewrite IH.
Qed.
End DictFacts.

Lemma rget_rset (r : pydict) (k k' : string) (v : pyobj) :
  rget (rset r k v) k' = if k =? k' then Some v else rget r k'.
Proof.
  apply dict_get_set.
  - apply String.eqb_sym.
  - intros a b c Hab Hbc. apply String.eqb_eq in Hab, Hbc.
    apply String.eqb_eq. congruence.
Qed.

Lemma rget_rset_same (r : pydict) (k : string) (v : pyobj) :
  rget (rset r k v) k = Some v.
Proof. now rewrite rget_rset, String.eqb_refl. Qed.

Lemma rset_rset (r : pydict) (k : string) (v v' : pyobj) :
  rset (rset r k v) k v' = rset r k v'.
Proof. apply dict_set_set, String.eqb_refl. Qed.

Lemma key_eqb_sym (a b : pyobj) : key_eqb a b = key_eqb b a.
Proof.
  destruct a, b; cbn; try reflexivity;
    try apply Qeq_bool_comm; try apply String.eqb_sym.
Qed.

Lemma key_eqb_trans (a b c : pyobj) :
  key_eqb a b = true -> key_eqb b c = true -> key_eqb a c = true.
Proof.
  destruct a, b; cbn; try discriminate; destruct c; cbn;
    try discriminate; try reflexivity;
    try apply Qeq_bool_trans.
  intros Hab Hbc. apply String.eqb_eq in Hab, Hbc. apply String.eqb_eq.
  congruence.
Qed.

(** ** The metrics correlator *)

Section MetricsCorrelator.
Import GCPMetricsFilter.
Context `{Host}.

(** The correlator writes to the index and to nothing else. *)
Lemma split_by_resource_fields (ms : list pyobj) (s s' : self) :
  split_by_resource s ms = Ok s' ->
  s' = with_resource_metric_dict s (resource_metric_dict s').
Proof.
  revert s; induction ms as [|m ms IH]; intros s; cbn [split_by_resource].
  - intros [= ->]. now destruct s'.
  - destruct (jmespath_search (metric_key s) m) as [k|]; [|discriminate].
    cbn [bind]. destruct (index_set (resource_metric_dict s) k m) as [d|];
      [|discriminate].
    cbn [bind]. intros Hs. apply IH in Hs. exact Hs.
Qed.

Lemma split_by_resource_get (ms : list pyobj) (s s' : self) (k : pyobj) :
  split_by_resource s ms = Ok s' ->
  dict_get key_eqb (resource_metric_dict s') k
  = match last_bearing (metric_key s) k ms with
    | Some m => Some m
    | None => dict_get key_eqb (resource_metric_dict s) k
    end.
Proof.
  revert s; induction ms as [|m ms IH]; intros s;
    cbn [split_by_resource last_bearing].
  - now intros [= ->].
  - unfold bears_key.
    destruct (jmespath_search (metric_key s) m) as [k0|]; [|discriminate].
    cbn [bind]. unfold index_set.
    destruct (hashable k0); [|discriminate].
    cbn [bind]. intros Hs. apply IH in Hs. cbn in Hs. rewrite Hs.
    destruct (last_bearing (metric_key s) k ms); [reflexivity|].
    rewrite (dict_get_set key_eqb key_eqb_sym key_eqb_trans).
    now destruct (key_eqb k0 k).
Qed.

Lemma split_by_resource_returns (ms : list pyobj) (s : self) :
  (forall m, In m ms ->
             exists k, jmespath_search (metric_key s) m = Ok k
                       /\ hashable k = true) ->
  exists s', split_by_resource s ms = Ok s'.
Proof.
  revert s; induction ms as [|m ms IH]; intros s Hms;
    cbn [split_by_resource].
  - now exists s.
  - destruct (Hms m (or_introl eq_refl)) as (k & -> & Hk).
    cbn [bind]. unfold index_set. rewrite Hk. cbn [bind].
    apply IH. intros m' Hm'. cbn. apply Hms. now right.
Qed.
End MetricsCorrelator.

(** C5.  When every fetched record yields a key the index can hold, the
    metrics correlator returns, and the index it builds from an empty one
    maps every key to the last record, in fetch order, bearing that key. *)
Theorem metrics_index_last_wins (H : Host) (s : GCPMetricsFilter.self)
  (ms : list pyobj) :
  GCPMetricsFilter.resource_metric_dict s = [] ->
  (forall m, In m ms ->
             exists k, jmespath_search (GCPMetricsFilter.metric_key s) m = Ok k
                       /\ hashable k = true) ->
  exists s',
    GCPMetricsFilter.split_by_resource s ms = Ok s'
    /\ forall k,
        dict_get key_eqb (GCPMetricsFilter.resource_metric_dict s') k
        = last_bearing (GCPMetricsFilter.metric_key s) k ms.
Proof.
  intros Hempty Hms.
  destruct (split_by_resource_returns ms s Hms) as [s' Hs'].
  exists s'. split; [exact Hs'|].
  intros k. rewrite (split_by_resource_get ms s s' k Hs'), Hempty.
  now destruct (last_bearing (GCPMetricsFilter.metric_key s) k ms).
Qed.

Lemma metrics_index_last_wins_witness :
  exists s',
    @GCPMetricsFilter.split_by_resource plain_host cpu_filter
      [cpu_series "vm-1" 0.05; cpu_series "vm-2" 0.5; cpu_series "vm-1" 0.07]
    = Ok s'
    /\ forall k,
        dict_get key_eqb (GCPMetricsFilter.resource_metric_dict s') k
        = @last_bearing plain_host "metric.labels.instance_name" k
            [cpu_series "vm-1" 0.05; cpu_series "vm-2" 0.5;
             cpu_series "vm-1" 0.07].
Proof.
  apply (metrics_index_last_wins plain_host cpu_filter).
  - reflexivity.
  - intros m [<-|[<-|[<-|[]]]]; eexists; split; reflexivity.
Defined.

(** ** The findings correlator *)

Section FindingsCorrelator.
Import SecurityComandCenterFindingsFilter.

Lemma findings_lookup_set (d : list (string * list pyobj)) (n n' : string)
  (l : list pyobj) :
  findings_lookup (dict_set String.eqb d n l) n'
  = if n =? n' then l else findings_lookup d n'.
Proof.
  unfold findings_lookup. rewrite dict_get_set.
  - now destruct (n =? n').
  - apply String.eqb_sym.
  - intros a b c Hab Hbc. apply String.eqb_eq in Hab, Hbc.
    apply String.eqb_eq. congruence.
Qed.

Lemma total_findings_append (d : list (string * list pyobj)) (n : string)
  (f : pyobj) :
  total_findings
    (dict_set String.eqb d n (findings_lookup d n ++ [f])%list)
  = S (total_findings d).
Proof.
  unfold total_findings, findings_lookup, list_sum.
  induction d as [|[n0 l0] d IH]; cbn [dict_set dict_get].
  - reflexivity.
  - destruct (n0 =? n); cbn [map fold_right snd get_default].
    + rewrite length_app. cbn. lia.
    + rewrite IH. lia.
Qed.

Lemma findings_split_lookup (fs : list pyobj) (s s' : self) (n : string) :
  split_by_resource s fs = Ok s' ->
  findings_lookup (findings_by_resource s') n
  = (findings_lookup (findings_by_resource s) n ++ findings_of n fs)%list.
Proof.
  revert s; induction fs as [|f fs IH]; intros s;
    cbn [split_by_resource findings_of filter].
  - intros [= ->]. now rewrite app_nil_r.
  - destruct (finding_resource_name f) as [n0|]; [|discriminate].
    cbn [bind]. intros Hs. apply IH in Hs. rewrite Hs.
    cbn [findings_by_resource with_findings_by_resource].
    fold (findings_lookup (findings_by_resource s) n0).
    rewrite findings_lookup_set. fold (findings_of n fs).
    destruct (String.eqb_spec n0 n) as [->|Hn].
    + now rewrite <- app_assoc.
    + reflexivity.
Qed.

Lemma findings_split_total (fs : list pyobj) (s s' : self) :
  split_by_resource s fs = Ok s' ->
  total_findings (findings_by_resource s')
  = (total_findings (findings_by_resource s) + List.length fs)%nat.
Proof.
  revert s; induction fs as [|f fs IH]; intros s; cbn [split_by_resource].
  - intros [= ->]. cbn. lia.
  - destruct (finding_resource_name f) as [n0|]; [|discriminate].
    cbn [bind]. intros Hs. apply IH in Hs. rewrite Hs.
    cbn [findings_by_resource with_findings_by_resource].
    fold (findings_lookup (findings_by_resource s) n0).
    rewrite total_findings_append. cbn [List.length]. lia.
Qed.

Lemma findings_split_returns (fs : list pyobj) (s : self) :
  (forall f, In f fs -> exists n, finding_resource_name f = Ok n) ->
  exists s', split_by_resource s fs = Ok s'.
Proof.
  revert s; induction fs as [|f fs IH]; intros s Hfs;
    cbn [split_by_resource].
  - now exists s.
  - destruct (Hfs f (or_introl eq_refl)) as [n ->]. cbn [bind].
    apply IH. intros f' Hf'. apply Hfs. now right.
Qed.

Lemma findings_split_raises (fs : list pyobj) (s : self) (f : pyobj)
  (e : exn) :
  In f fs -> finding_resource_name f = Raise e ->
  exists e', split_by_resource s fs = Raise e'.
Proof.
  revert s; induction fs as [|f0 fs IH]; intros s Hin Hf; [easy|].
  cbn [split_by_resource].
  destruct (finding_resource_name f0) as [n0|e0] eqn:Hf0; cbn [bind].
  - destruct Hin as [->|Hin]; [congruence|]. now apply IH.
  - now exists e0.
Qed.
End FindingsCorrelator.

(** C4, as the code has it.  From an empty index: when every fetched
    finding resolves its resource name, the findings correlator returns,
    the lengths of the lists of the index add up to the number of
    findings, and the list under a name is the findings of that name in
    fetch order; when a finding does not resolve its name, the
    correlator raises and builds no index. *)
Theorem findings_index_complete
  (s : SecurityComandCenterFindingsFilter.self) (fs : list pyobj) :
  SecurityComandCenterFindingsFilter.findings_by_resource s = [] ->
  ((forall f, In f fs ->
      exists n,
        SecurityComandCenterFindingsFilter.finding_resource_name f = Ok n) ->
   exists s',
     SecurityComandCenterFindingsFilter.split_by_resource s fs = Ok s'
     /\ total_findings
          (SecurityComandCenterFindingsFilter.findings_by_resource s')
        = List.length fs
     /\ forall n l,
         dict_get String.eqb
           (SecurityComandCenterFindingsFilter.findings_by_resource s') n
         = Some l ->
         l = findings_of n fs)
  /\ (forall f e,
         In f fs ->
         SecurityComandCenterFindingsFilter.finding_resource_name f = Raise e ->
         exists e',
           SecurityComandCenterFindingsFilter.split_by_resource s fs
           = Raise e').
Proof.
  intros Hempty. split.
  - intros Hfs.
    destruct (findings_split_returns fs s Hfs) as [s' Hs'].
    exists s'. split; [exact Hs'|]. split.
    + rewrite (findings_split_total fs s s' Hs'), Hempty. reflexivity.
    + intros n l Hl.
      pose proof (findings_split_lookup fs s s' n Hs') as Hn.
      rewrite Hempty in Hn. unfold findings_lookup in Hn.
      rewrite Hl in Hn. exact Hn.
  - intros f e. apply findings_split_raises.
Qed.

Lemma findings_index_complete_witness :
  (exists s',
      SecurityComandCenterFindingsFilter.split_by_resource bucket_filter
        [finding "//storage/b1" "X"; finding "b2" "Y"; finding "p/b1" "Z"]
      = Ok s'
      /\ total_findings
           (SecurityComandCenterFindingsFilter.findings_by_resource s')
         = 3%nat
      /\ forall n l,
          dict_get String.eqb
            (SecurityComandCenterFindingsFilter.findings_by_resource s') n
          = Some l ->
          l = findings_of n
                [finding "//storage/b1" "X"; finding "b2" "Y";
                 finding "p/b1" "Z"])
  /\ exists e',
      SecurityComandCenterFindingsFilter.split_by_resource bucket_filter
        [finding "//storage/b1" "X"; PyDict [("category", PyStr "Y")]]
      = Raise e'.
Proof.
  split.
  - apply (findings_index_complete bucket_filter); [reflexivity|].
    intros f [<-|[<-|[<-|[]]]]; eexists; reflexivity.
  - apply (proj2 (findings_index_complete bucket_filter
                    [finding "//storage/b1" "X";
                     PyDict [("category", PyStr "Y")]] eq_refl)
             (PyDict [("category", PyStr "Y")]) KeyError).
    + right; left; reflexivity.
    + reflexivity.
Defined.

(** A fetched finding without a resource name is not set aside and
    counted: the correlator raises on it. *)
Lemma findings_unresolved_name_raises :
  SecurityComandCenterFindingsFilter.split_by_resource bucket_filter
    [finding "//storage/b1" "X"; PyDict [("category", PyStr "Y")]]
  = Raise KeyError.
Proof. reflexivity. Qed.

(** ** The threshold evaluator *)

Lemma Qlt_bool_iff (x y : Q) : Qlt_bool x y = true <-> x < y.
Proof.
  unfold Qlt_bool. rewrite negb_true_iff. split.
  - intros Hle. apply Qnot_le_lt. intros Hyx.
    apply Qle_bool_iff in Hyx. congruence.
  - intros Hlt. destruct (Qle_bool y x) eqn:Hle; [|reflexivity].
    apply Qle_bool_iff in Hle. now apply Qlt_not_le in Hlt.
Qed.

Lemma setdefault_get (r : pydict) (k : string) (d : pyobj) :
  rget (fst (setdefault r k d)) k = Some (snd (setdefault r k d)).
Proof.
  unfold setdefault. destruct (rget r k) eqn:Hk; cbn [fst snd];
    [exact Hk | apply rget_rset_same].
Qed.

Lemma setdefault_present (r : pydict) (k : string) (d v : pyobj) :
  rget r k = Some v -> setdefault r k d = (r, v).
Proof. unfold setdefault. now intros ->. Qed.

Lemma setdefault_metrics_container (r : resource) :
  metrics_container_ok r = true ->
  exists c, snd (setdefault r "c7n.metrics" (PyDict [])) = PyDict c.
Proof.
  unfold metrics_container_ok, setdefault.
  destruct (rget r "c7n.metrics") as [[]|]; try discriminate; intros _;
    eexists; reflexivity.
Qed.

Section MetricsEvaluator.
Import GCPMetricsFilter.
Context `{Host}.

Lemma configure_inv (d : data) (s : self) :
  configure d = Ok s ->
  d_name d = Some (metric s)
  /\ d_value d = Some (value s)
  /\ OPERATORS (get_default (d_op d) "less-than") = Some (op s)
  /\ missing_value s = get_default (d_missing_value d) 0
  /\ resource_metric_dict s = [].
Proof.
  unfold configure.
  destruct (py_timedelta (get_default (d_days d) 14)) as [duration|];
    [|discriminate].
  destruct (d_name d); [|discriminate].
  destruct (d_resource_key d); [|discriminate].
  destruct (d_metric_key d); [|discriminate].
  cbn [item bind].
  destruct (time_window duration) as [window|]; [|discriminate].
  cbn [bind].
  destruct (OPERATORS (get_default (d_op d) "less-than"));
    [|discriminate].
  destruct (d_value d); [|discriminate].
  cbn [item bind]. intros [= <-]. cbn. repeat split; reflexivity.
Qed.

(** [process_resource] along the three ways through it. *)
Lemma process_resource_observe_raises (s : self) (r : resource) (e : exn) :
  observe s (fst (setdefault r "c7n.metrics" (PyDict []))) = Raise e ->
  process_resource s r
  = (fst (setdefault r "c7n.metrics" (PyDict [])), Raise e).
Proof.
  unfold process_resource.
  destruct (setdefault r "c7n.metrics" (PyDict [])) as [r1 rm].
  cbn [fst]. now intros ->.
Qed.

Lemma process_resource_observed (s : self) (r : resource) (c : pydict)
  (metric : pyobj) (metric_value : Q) :
  snd (setdefault r "c7n.metrics" (PyDict [])) = PyDict c ->
  observe s (fst (setdefault r "c7n.metrics" (PyDict [])))
  = Ok (metric, metric_value) ->
  process_resource s r
  = (rset (fst (setdefault r "c7n.metrics" (PyDict []))) "c7n.metrics"
       (PyDict (rset c (c7n_metric_key s) metric)),
     op s metric_value (value s)).
Proof.
  unfold process_resource.
  destruct (setdefault r "c7n.metrics" (PyDict [])) as [r1 rm].
  cbn [fst snd]. intros -> ->. reflexivity.
Qed.

Lemma metrics_process_resource_inv (s : self) (r r' : resource)
  (b : result bool) :
  process_resource s r = (r', b) ->
  (exists e,
      b = Raise e /\ r' = fst (setdefault r "c7n.metrics" (PyDict [])))
  \/ exists c metric metric_value,
      snd (setdefault r "c7n.metrics" (PyDict [])) = PyDict c
      /\ observe s (fst (setdefault r "c7n.metrics" (PyDict [])))
         = Ok (metric, metric_value)
      /\ r' = rset (fst (setdefault r "c7n.metrics" (PyDict [])))
                "c7n.metrics" (PyDict (rset c (c7n_metric_key s) metric))
      /\ b = op s metric_value (value s).
Proof.
  unfold process_resource.
  destruct (setdefault r "c7n.metrics" (PyDict [])) as [r1 rm].
  cbn [fst snd].
  destruct (observe s r1) as [[metric metric_value]|e].
  - destruct rm; cbn [setitem]; intros [= <- <-];
      try (left; eexists; split; reflexivity).
    right. now exists d, metric, metric_value.
  - intros [= <- <-]. left. now exists e.
Qed.

Lemma observe_absent (s : self) (r : resource) (k : pyobj) :
  jmespath_search (resource_key s) (PyDict r) = Ok k ->
  hashable k = true ->
  dict_get key_eqb (resource_metric_dict s) k = None ->
  observe s r = Ok (PyNone, missing_value s).
Proof.
  intros Hk Hh Hd. unfold observe, index_get.
  rewrite Hk. cbn [bind]. rewrite Hh, Hd. reflexivity.
Qed.

Lemma observe_falsy (s : self) (r : resource) (k metric : pyobj) :
  jmespath_search (resource_key s) (PyDict r) = Ok k ->
  hashable k = true ->
  dict_get key_eqb (resource_metric_dict s) k = Some metric ->
  truthy metric = false ->
  observe s r = Ok (metric, missing_value s).
Proof.
  intros Hk Hh Hd Ht. unfold observe, index_get.
  rewrite Hk. cbn [bind]. rewrite Hh, Hd. cbn [get_default bind].
  now rewrite Ht.
Qed.

(** The one malformed record that is falsy is the empty mapping. *)
Lemma malformed_falsy (metric : pyobj) :
  malformed metric -> truthy metric = false -> metric = PyDict [].
Proof.
  intros [d Hp|d Hp|d p ps Hp _|d p ps Hp _] Ht; destruct d;
    try discriminate; reflexivity.
Qed.

Lemma first_point_value_malformed (metric : pyobj) :
  malformed metric ->
  first_point_value metric = Raise KeyError
  \/ first_point_value metric = Raise IndexError.
Proof.
  unfold first_point_value, getitem, rget.
  intros [d Hp|d Hp|d p ps Hp Hv|d p ps Hp Hv]; unfold rget in *;
    rewrite Hp; cbn [bind getitem0]; try rewrite Hv; cbn; auto.
Qed.

Lemma observe_malformed (s : self) (r : resource) (k metric : pyobj) :
  jmespath_search (resource_key s) (PyDict r) = Ok k ->
  hashable k = true ->
  dict_get key_eqb (resource_metric_dict s) k = Some metric ->
  malformed metric ->
  truthy metric = true ->
  observe s r = Raise KeyError \/ observe s r = Raise IndexError.
Proof.
  intros Hk Hh Hd Hm Ht. unfold observe, index_get.
  rewrite Hk. cbn [bind]. rewrite Hh, Hd. cbn [get_default bind].
  rewrite Ht. cbn [negb].
  destruct (first_point_value_malformed _ Hm) as [-> | ->]; auto.
Qed.

Lemma matched_raises (s : self) (r r' : resource) (rs : list resource)
  (e : exn) :
  process_resource s r = (r', Raise e) ->
  matched s (r :: rs) = (r' :: rs, Raise e).
Proof. cbn [matched]. now intros ->. Qed.

Lemma matched_decided (s : self) (r r' : resource) (rs : list resource)
  (b : bool) :
  process_resource s r = (r', Ok b) ->
  matched s (r :: rs)
  = (r' :: fst (matched s rs),
     match snd (matched s rs) with
     | Ok m => Ok (if b then r' :: m else m)
     | Raise e => Raise e
     end).
Proof.
  cbn [matched]. intros ->. now destruct (matched s rs).
Qed.
End MetricsEvaluator.

(** C2, as the code has it.  Take a correlated record that is there
    but malformed (no ['points'], an empty ['points'] list, a first
    point without ['value'], an empty ['value'] mapping).  When the
    record is truthy, the threshold evaluator raises [KeyError] or
    [IndexError]: no default is applied, no annotation is written, and
    the loop over the resources stops there, the remaining resources
    left as they were.  When it is falsy, which only the empty mapping
    is, the record is read as no value: the default is applied, the
    record is written as the annotation and the loop goes on to the
    remaining resources. *)
Theorem malformed_record_raises (H : Host) (s : GCPMetricsFilter.self)
  (r : resource) (k metric : pyobj) :
  jmespath_search (GCPMetricsFilter.resource_key s)
    (PyDict (fst (setdefault r "c7n.metrics" (PyDict [])))) = Ok k ->
  hashable k = true ->
  dict_get key_eqb (GCPMetricsFilter.resource_metric_dict s) k = Some metric ->
  malformed metric ->
  (truthy metric = true ->
   exists e,
     (e = KeyError \/ e = IndexError)
     /\ GCPMetricsFilter.process_resource s r
        = (fst (setdefault r "c7n.metrics" (PyDict [])), Raise e)
     /\ forall rs,
         GCPMetricsFilter.matched s (r :: rs)
         = (fst (setdefault r "c7n.metrics" (PyDict [])) :: rs, Raise e))
  /\ (truthy metric = false ->
      metric = PyDict []
      /\ (metrics_container_ok r = true ->
          snd (GCPMetricsFilter.process_resource s r)
          = GCPMetricsFilter.op s (GCPMetricsFilter.missing_value s)
              (GCPMetricsFilter.value s)
          /\ metrics_annotation (fst (GCPMetricsFilter.process_resource s r))
               (GCPMetricsFilter.c7n_metric_key s)
             = Some metric
          /\ forall rs b,
              GCPMetricsFilter.op s (GCPMetricsFilter.missing_value s)
                (GCPMetricsFilter.value s) = Ok b ->
              GCPMetricsFilter.matched s (r :: rs)
              = (fst (GCPMetricsFilter.process_resource s r)
                   :: fst (GCPMetricsFilter.matched s rs),
                 match snd (GCPMetricsFilter.matched s rs) with
                 | Ok m =>
                     Ok (if b
                         then fst (GCPMetricsFilter.process_resource s r) :: m
                         else m)
                 | Raise e => Raise e
                 end))).
Proof.
  intros Hk Hh Hd Hm. split; intros Ht.
  - destruct (observe_malformed s _ k metric Hk Hh Hd Hm Ht) as [Ho|Ho].
    + exists KeyError. split; [now left|].
      pose proof (process_resource_observe_raises s r _ Ho) as Hp.
      split; [exact Hp|]. intros rs. now apply matched_raises.
    + exists IndexError. split; [now right|].
      pose proof (process_resource_observe_raises s r _ Ho) as Hp.
      split; [exact Hp|]. intros rs. now apply matched_raises.
  - split; [exact (malformed_falsy metric Hm Ht)|]. intros Hok.
    destruct (setdefault_metrics_container r Hok) as [c Hcont].
    pose proof (observe_falsy s _ k metric Hk Hh Hd Ht) as Ho.
    pose proof (process_resource_observed s r c _ _ Hcont Ho) as Hp.
    rewrite Hp. cbn [fst snd]. split; [reflexivity|]. split.
    + unfold metrics_annotation. rewrite rget_rset_same.
      apply rget_rset_same.
    + intros rs b Hb. rewrite Hb in Hp. now apply matched_decided.
Qed.

Lemma malformed_record_raises_witness :
  (exists e,
      (e = KeyError \/ e = IndexError)
      /\ @GCPMetricsFilter.process_resource plain_host cpu_filter_fetched
           (vm "vm-3")
         = (fst (setdefault (vm "vm-3") "c7n.metrics" (PyDict [])), Raise e)
      /\ forall rs,
          @GCPMetricsFilter.matched plain_host cpu_filter_fetched
            (vm "vm-3" :: rs)
          = (fst (setdefault (vm "vm-3") "c7n.metrics" (PyDict [])) :: rs,
             Raise e))
  /\ snd (@GCPMetricsFilter.process_resource plain_host cpu_filter_fetched
            [("id", PyStr "vm-9")])
     = Ok true
  /\ metrics_annotation
       (fst (@GCPMetricsFilter.process_resource plain_host cpu_filter_fetched
               [("id", PyStr "vm-9")]))
       cpu_key
     = Some (PyDict []).
Proof.
  split.
  - apply (proj1 (malformed_record_raises plain_host cpu_filter_fetched
                    (vm "vm-3") (PyStr "vm-3") (series "vm-3" [])
                    eq_refl eq_refl eq_refl
                    (no_points
                       [("metric",
                         PyDict
                           [("labels",
                             PyDict [("instance_name", PyStr "vm-3")])])]
                       eq_refl))).
    reflexivity.
  - destruct (proj2 (malformed_record_raises plain_host cpu_filter_fetched
                       [("id", PyStr "vm-9")] PyNone (PyDict [])
                       eq_refl eq_refl eq_refl (no_points [] eq_refl))
                eq_refl)
      as [_ Hdefault].
    destruct (Hdefault eq_refl) as (Hdecision & Hannotation & _).
    split; [exact Hdecision | exact Hannotation].
Defined.

(** A record without ['points'] is not read as "no value": the
    evaluator raises [KeyError], and the resource after it in the list
    is not evaluated. *)
Lemma malformed_record_not_defaulted :
  snd (@GCPMetricsFilter.process_resource plain_host cpu_filter_fetched
         (vm "vm-3"))
  = Raise KeyError
  /\ @GCPMetricsFilter.matched plain_host cpu_filter_fetched
       [vm "vm-3"; vm "vm-1"]
     = ([[("name", PyStr "vm-3"); ("c7n.metrics", PyDict [])]; vm "vm-1"],
        Raise KeyError).
Proof. split; reflexivity. Qed.

(** C6.  For a resource with no correlated record the threshold
    evaluator returns what the configured operator gives on the default
    value (['missing-value'], 0 when unset) and the threshold; with
    default 0, operator less-than and threshold 0.1 the resource is
    retained. *)
Theorem missing_record_uses_default (H : Host) (d : GCPMetricsFilter.data)
  (s : GCPMetricsFilter.self) (index : list (pyobj * pyobj)) (r : resource)
  (k : pyobj) :
  GCPMetricsFilter.configure d = Ok s ->
  metrics_container_ok r = true ->
  jmespath_search (GCPMetricsFilter.resource_key s)
    (PyDict (fst (setdefault r "c7n.metrics" (PyDict [])))) = Ok k ->
  hashable k = true ->
  dict_get key_eqb index k = None ->
  GCPMetricsFilter.missing_value s
  = get_default (GCPMetricsFilter.d_missing_value d) 0
  /\ snd (GCPMetricsFilter.process_resource
            (GCPMetricsFilter.with_resource_metric_dict s index) r)
     = GCPMetricsFilter.op s (GCPMetricsFilter.missing_value s)
         (GCPMetricsFilter.value s)
  /\ (OPERATORS "less-than" = Some operator_lt ->
      get_default (GCPMetricsFilter.d_op d) "less-than" = "less-than" ->
      get_default (GCPMetricsFilter.d_missing_value d) 0 == 0 ->
      GCPMetricsFilter.value s == 0.1 ->
      snd (GCPMetricsFilter.process_resource
             (GCPMetricsFilter.with_resource_metric_dict s index) r)
      = Ok true).
Proof.
  intros Hc Hok Hk Hh Hd.
  destruct (configure_inv d s Hc) as (_ & _ & Hop & Hmv & _).
  destruct (setdefault_metrics_container r Hok) as [c Hcont].
  pose proof
    (observe_absent (GCPMetricsFilter.with_resource_metric_dict s index)
       _ k Hk Hh Hd) as Ho.
  pose proof (process_resource_observed _ r c _ _ Hcont Ho) as Hp.
  cbn in Hp.
  split; [exact Hmv|]. split; [now rewrite Hp|].
  intros Hlt Hname Hzero Hval. rewrite Hp. cbn [snd].
  rewrite Hname, Hlt in Hop. injection Hop as <-.
  unfold operator_lt. f_equal. apply Qlt_bool_iff.
  rewrite Hmv, Hzero, Hval. reflexivity.
Qed.

Lemma missing_record_uses_default_witness :
  GCPMetricsFilter.missing_value cpu_filter = 0
  /\ snd (@GCPMetricsFilter.process_resource plain_host
            (GCPMetricsFilter.with_resource_metric_dict cpu_filter cpu_index)
            (vm "vm-4"))
     = Ok true.
Proof.
  destruct (missing_record_uses_default plain_host cpu_policy cpu_filter
              cpu_index (vm "vm-4") (PyStr "vm-4"))
    as (Hmv & _ & Hretained).
  - reflexivity.
  - reflexivity.
  - reflexivity.
  - reflexivity.
  - reflexivity.
  - split; [exact Hmv|].
    apply Hretained; reflexivity.
Defined.

(** C9.  With operator less-than, a resource the threshold predicate
    retains at [v1] is retained at every [v2] with [v1 <= v2]. *)
Theorem less_than_monotone (H : Host) (s : GCPMetricsFilter.self)
  (r : resource) (v1 v2 : Q) :
  GCPMetricsFilter.op s = operator_lt ->
  v1 <= v2 ->
  snd (GCPMetricsFilter.process_resource (GCPMetricsFilter.with_value s v1) r)
  = Ok true ->
  snd (GCPMetricsFilter.process_resource (GCPMetricsFilter.with_value s v2) r)
  = Ok true.
Proof.
  intros Hop Hle H1.
  destruct (GCPMetricsFilter.process_resource
              (GCPMetricsFilter.with_value s v1) r) as [r1 b1] eqn:Hp1.
  cbn [snd] in H1. subst b1.
  destruct (metrics_process_resource_inv _ _ _ _ Hp1)
    as [(e & He & _)|(c & metric & x & Hcont & Ho & _ & Hb)];
    [discriminate|].
  change (GCPMetricsFilter.observe s
            (fst (setdefault r "c7n.metrics" (PyDict []))) = Ok (metric, x))
    in Ho.
  rewrite (process_resource_observed (GCPMetricsFilter.with_value s v2)
             r c metric x Hcont Ho).
  cbn in Hb |- *. rewrite Hop in Hb |- *. unfold operator_lt in *.
  injection Hb as Hb. symmetry in Hb. apply Qlt_bool_iff in Hb.
  f_equal. apply Qlt_bool_iff. now apply Qlt_le_trans with v1.
Qed.

Lemma less_than_monotone_witness :
  snd (@GCPMetricsFilter.process_resource plain_host
         (GCPMetricsFilter.with_value cpu_filter_fetched 0.5) (vm "vm-1"))
  = Ok true.
Proof.
  apply (less_than_monotone plain_host cpu_filter_fetched (vm "vm-1") 0.1 0.5).
  - reflexivity.
  - unfold Qle. cbn. lia.
  - reflexivity.
Defined.

(** C10.  A correlated record that is in the index but falsy is compared
    like an absent one: the operator is given the default value, as it
    is with an empty index, and the falsy record itself is what the
    annotation holds. *)
Theorem falsy_record_like_absent (H : Host) (s : GCPMetricsFilter.self)
  (r : resource) (k metric : pyobj) :
  metrics_container_ok r = true ->
  jmespath_search (GCPMetricsFilter.resource_key s)
    (PyDict (fst (setdefault r "c7n.metrics" (PyDict [])))) = Ok k ->
  hashable k = true ->
  dict_get key_eqb (GCPMetricsFilter.resource_metric_dict s) k = Some metric ->
  truthy metric = false ->
  snd (GCPMetricsFilter.process_resource s r)
  = GCPMetricsFilter.op s (GCPMetricsFilter.missing_value s)
      (GCPMetricsFilter.value s)
  /\ snd (GCPMetricsFilter.process_resource s r)
     = snd (GCPMetricsFilter.process_resource
              (GCPMetricsFilter.with_resource_metric_dict s []) r)
  /\ metrics_annotation (fst (GCPMetricsFilter.process_resource s r))
       (GCPMetricsFilter.c7n_metric_key s)
     = Some metric.
Proof.
  intros Hok Hk Hh Hd Ht.
  destruct (setdefault_metrics_container r Hok) as [c Hcont].
  pose proof (observe_falsy s _ k metric Hk Hh Hd Ht) as Ho.
  rewrite (process_resource_observed s r c _ _ Hcont Ho).
  assert (Ha : GCPMetricsFilter.observe
                 (GCPMetricsFilter.with_resource_metric_dict s [])
                 (fst (setdefault r "c7n.metrics" (PyDict [])))
               = Ok (PyNone, GCPMetricsFilter.missing_value s)).
  { apply (observe_absent
             (GCPMetricsFilter.with_resource_metric_dict s []) _ k);
      [exact Hk | exact Hh | reflexivity]. }
  rewrite (process_resource_observed _ r c _ _ Hcont Ha).
  cbn [fst snd]. split; [reflexivity|]. split; [reflexivity|].
  unfold metrics_annotation. rewrite rget_rset_same. apply rget_rset_same.
Qed.

Lemma falsy_record_like_absent_witness :
  snd (@GCPMetricsFilter.process_resource plain_host cpu_filter_fetched [])
  = Ok true
  /\ metrics_annotation
       (fst (@GCPMetricsFilter.process_resource plain_host
               cpu_filter_fetched []))
       cpu_key
     = Some (PyDict []).
Proof.
  destruct (falsy_record_like_absent plain_host cpu_filter_fetched []
              PyNone (PyDict []))
    as (Hdefault & _ & Hannotation); try reflexivity.
  split; [exact Hdefault | exact Hannotation].
Defined.

(** ** The match evaluator *)

Lemma setdefault_findings_container (r : resource) :
  findings_container_ok r = true ->
  snd (setdefault r "c7n.findings" (PyList []))
  = PyList (get_default (findings_annotation r) []).
Proof.
  unfold findings_container_ok, findings_annotation, setdefault.
  destruct (rget r "c7n.findings") as [[]|]; try discriminate; intros _;
    reflexivity.
Qed.

Lemma setdefault_other (r : pydict) (k k' : string) (d : pyobj) :
  k <> k' -> rget (fst (setdefault r k d)) k' = rget r k'.
Proof.
  intros Hk. unfold setdefault. destruct (rget r k); cbn [fst];
    [reflexivity|].
  rewrite rget_rset. now destruct (String.eqb_spec k k').
Qed.

Section MatchEvaluator.
Import SecurityComandCenterFindingsFilter.
Context `{Host}.

Lemma process_resource_correlated (s : self) (r : resource)
  (found prior : list pyobj) :
  correlated s r = Ok found ->
  snd (setdefault r "c7n.findings" (PyList [])) = PyList prior ->
  process_resource s r
  = (rset (fst (setdefault r "c7n.findings" (PyList []))) "c7n.findings"
       (PyList (prior ++ found)%list),
     findings_decision s found).
Proof.
  unfold process_resource. intros ->.
  destruct (setdefault r "c7n.findings" (PyList [])) as [r1 l].
  cbn [fst snd]. intros ->. reflexivity.
Qed.

Lemma findings_process_resource_inv (s : self) (r r' : resource) (b : bool) :
  process_resource s r = (r', Ok b) ->
  exists found prior,
    correlated s r = Ok found
    /\ snd (setdefault r "c7n.findings" (PyList [])) = PyList prior
    /\ r' = rset (fst (setdefault r "c7n.findings" (PyList [])))
              "c7n.findings" (PyList (prior ++ found)%list)
    /\ findings_decision s found = Ok b.
Proof.
  unfold process_resource.
  destruct (correlated s r) as [found|]; [|discriminate].
  destruct (setdefault r "c7n.findings" (PyList [])) as [r1 l].
  cbn [fst snd]. destruct l; cbn [extend]; try discriminate.
  intros [= <- Hb]. now exists found, l.
Qed.

Lemma correlated_hashable (s : self) (r : resource) (v : pyobj) :
  rget r (name s) = Some v -> hashable v = true ->
  exists found, correlated s r = Ok found.
Proof.
  intros Hv Hh. unfold correlated, getitem. unfold rget in Hv.
  rewrite Hv. cbn [bind]. destruct v; try discriminate; cbn;
    eexists; reflexivity.
Qed.
End MatchEvaluator.

(** C7.  With no ['key'] configured, the match evaluator returns
    whether the list of findings correlated to the resource is non-empty:
    the resource is retained exactly when there is at least one, and the
    findings are appended to its annotation list either way; with none
    correlated the resource is dropped and the list stays as it was, of
    length 0 for a resource that carried none. *)
Theorem existence_predicate (H : Host)
  (s : SecurityComandCenterFindingsFilter.self) (r : resource) (v : pyobj) :
  rget (SecurityComandCenterFindingsFilter.data s) "key" = None ->
  rget r (SecurityComandCenterFindingsFilter.name s) = Some v ->
  hashable v = true ->
  findings_container_ok r = true ->
  exists found,
    SecurityComandCenterFindingsFilter.correlated s r = Ok found
    /\ snd (SecurityComandCenterFindingsFilter.process_resource s r)
       = Ok (0 <? List.length found)%nat
    /\ (snd (SecurityComandCenterFindingsFilter.process_resource s r)
        = Ok true <-> (List.length found > 0)%nat)
    /\ findings_annotation
         (fst (SecurityComandCenterFindingsFilter.process_resource s r))
       = Some (get_default (findings_annotation r) [] ++ found)%list
    /\ (List.length found = 0%nat ->
        snd (SecurityComandCenterFindingsFilter.process_resource s r)
        = Ok false
        /\ (rget r "c7n.findings" = None ->
            option_map (@List.length pyobj)
              (findings_annotation
                 (fst (SecurityComandCenterFindingsFilter.process_resource
                         s r)))
            = Some 0%nat)).
Proof.
  intros Hkey Hv Hh Hok.
  destruct (correlated_hashable s r v Hv Hh) as [found Hfound].
  exists found. split; [exact Hfound|].
  rewrite (process_resource_correlated s r found _ Hfound
             (setdefault_findings_container r Hok)).
  cbn [fst snd]. unfold findings_decision. rewrite Hkey.
  cbn [get_default truthy negb].
  split; [reflexivity|]. split; [|split].
  - split.
    + intros [= Hb]. apply Nat.ltb_lt in Hb. lia.
    + intros Hn. f_equal. apply Nat.ltb_lt. lia.
  - unfold findings_annotation at 1. now rewrite rget_rset_same.
  - intros Hzero. rewrite Hzero. split; [reflexivity|].
    intros Hnone. unfold findings_annotation.
    rewrite rget_rset_same, Hnone. cbn.
    rewrite Hzero. reflexivity.
Qed.

Lemma existence_predicate_witness :
  (exists found,
      @SecurityComandCenterFindingsFilter.correlated
        bucket_filter_fetched (vm "bucket-1") = Ok found
      /\ snd (@SecurityComandCenterFindingsFilter.process_resource plain_host
                bucket_filter_fetched (vm "bucket-1"))
         = Ok (0 <? List.length found)%nat
      /\ List.length found = 1%nat)
  /\ snd (@SecurityComandCenterFindingsFilter.process_resource plain_host
            bucket_filter_fetched (vm "bucket-2"))
     = Ok false
  /\ option_map (@List.length pyobj)
       (findings_annotation
          (fst (@SecurityComandCenterFindingsFilter.process_resource
                  plain_host bucket_filter_fetched (vm "bucket-2"))))
     = Some 0%nat.
Proof.
  split.
  - destruct (existence_predicate plain_host bucket_filter_fetched
                (vm "bucket-1") (PyStr "bucket-1"))
      as (found & Hfound & Hb & _); try reflexivity.
    exists found. split; [exact Hfound|]. split; [exact Hb|].
    injection Hfound as <-. reflexivity.
  - destruct (existence_predicate plain_host bucket_filter_fetched
                (vm "bucket-2") (PyStr "bucket-2"))
      as (found & Hfound & _ & _ & _ & Hzero); try reflexivity.
    injection Hfound as <-.
    destruct (Hzero eq_refl) as [Hdropped Hlen].
    split; [exact Hdropped | exact (Hlen eq_refl)].
Defined.

(** ** Annotation *)

(** C3.  A resource the threshold evaluator retains or drops carries,
    under ['c7n.metrics'], an entry at the composite key holding the
    correlated record ([None] when there is none); one the match
    evaluator retains or drops carries its ['c7n.findings'] list with the
    correlated findings appended.  The write comes before the predicate:
    the resource after the call is the same whatever the operator, the
    threshold or the match configuration, hence whatever the decision. *)
Theorem annotation_before_decision (H : Host)
  (ms : GCPMetricsFilter.self) (r r' : resource) (b : bool)
  (fs : SecurityComandCenterFindingsFilter.self) (q q' : resource)
  (c : bool) :
  GCPMetricsFilter.process_resource ms r = (r', Ok b) ->
  SecurityComandCenterFindingsFilter.process_resource fs q = (q', Ok c) ->
  (exists metric x,
      GCPMetricsFilter.observe ms
        (fst (setdefault r "c7n.metrics" (PyDict []))) = Ok (metric, x)
      /\ metrics_annotation r' (GCPMetricsFilter.c7n_metric_key ms)
         = Some metric)
  /\ (forall f v,
         fst (GCPMetricsFilter.process_resource
                (GCPMetricsFilter.with_op (GCPMetricsFilter.with_value ms v) f)
                r)
         = r')
  /\ (exists found prior,
         SecurityComandCenterFindingsFilter.correlated fs q = Ok found
         /\ findings_annotation q' = Some (prior ++ found)%list)
  /\ (forall d,
         fst (SecurityComandCenterFindingsFilter.process_resource
                (SecurityComandCenterFindingsFilter.with_data fs d) q)
         = q').
Proof.
  intros Hm Hf.
  destruct (metrics_process_resource_inv _ _ _ _ Hm)
    as [(e & He & _)|(cont & metric & x & Hcont & Ho & -> & Hb)];
    [discriminate|].
  destruct (findings_process_resource_inv _ _ _ _ Hf)
    as (found & prior & Hfound & Hprior & -> & Hc).
  split; [|split; [|split]].
  - exists metric, x. split; [exact Ho|].
    unfold metrics_annotation. rewrite rget_rset_same. apply rget_rset_same.
  - intros f v.
    rewrite (process_resource_observed
               (GCPMetricsFilter.with_op (GCPMetricsFilter.with_value ms v) f)
               r cont metric x Hcont Ho).
    reflexivity.
  - exists found, prior. split; [exact Hfound|].
    unfold findings_annotation. now rewrite rget_rset_same.
  - intros d.
    rewrite (process_resource_correlated
               (SecurityComandCenterFindingsFilter.with_data fs d)
               q found prior Hfound Hprior).
    reflexivity.
Qed.

Lemma annotation_before_decision_witness :
  metrics_annotation
    (fst (@GCPMetricsFilter.process_resource plain_host
            (GCPMetricsFilter.with_value cpu_filter_fetched 0.01)
            (vm "vm-1")))
    cpu_key
  = Some (cpu_series "vm-1" 0.05)
  /\ fst (@GCPMetricsFilter.process_resource plain_host cpu_filter_fetched
            (vm "vm-1"))
     = fst (@GCPMetricsFilter.process_resource plain_host
              (GCPMetricsFilter.with_value cpu_filter_fetched 0.01)
              (vm "vm-1"))
  /\ findings_annotation
       (fst (@SecurityComandCenterFindingsFilter.process_resource plain_host
               bucket_filter_fetched (vm "bucket-2")))
     = Some [].
Proof.
  destruct (annotation_before_decision plain_host
              (GCPMetricsFilter.with_value cpu_filter_fetched 0.01)
              (vm "vm-1") _ false
              bucket_filter_fetched (vm "bucket-2") _ false
              eq_refl eq_refl)
    as ((metric & x & Ho & Hannotation) & Hsame & (found & prior & _ & Hl) & _).
  split; [|split].
  - injection Ho as <- _. exact Hannotation.
  - exact (Hsame operator_lt 0.1).
  - reflexivity.
Defined.

(** C8.  The first run of the threshold evaluator leaves the record it
    observed at the composite key of ['c7n.metrics'].  A second run
    adds no entry: the keys of the resource and of the container are
    those after the first run, and the entry at the composite key is
    overwritten with the record the second run observes (it stays when
    the second run raises before writing).  When the resource key still
    resolves as it did, that is the same record, and the second run
    leaves the resource as the first left it and returns the same
    decision.  A second run of the match evaluator appends the
    correlated findings once more. *)
Theorem annotating_twice (H : Host)
  (ms : GCPMetricsFilter.self) (r r1 : resource) (b : bool)
  (fs : SecurityComandCenterFindingsFilter.self) (q q1 : resource)
  (c : bool) :
  GCPMetricsFilter.process_resource ms r = (r1, Ok b) ->
  SecurityComandCenterFindingsFilter.process_resource fs q = (q1, Ok c) ->
  SecurityComandCenterFindingsFilter.name fs <> "c7n.findings" ->
  (dict_keys (fst (GCPMetricsFilter.process_resource ms r1)) = dict_keys r1
   /\ metrics_annotation_keys (fst (GCPMetricsFilter.process_resource ms r1))
      = metrics_annotation_keys r1)
  /\ (jmespath_search (GCPMetricsFilter.resource_key ms) (PyDict r1)
      = jmespath_search (GCPMetricsFilter.resource_key ms)
          (PyDict (fst (setdefault r "c7n.metrics" (PyDict [])))) ->
      GCPMetricsFilter.process_resource ms r1 = (r1, Ok b))
  /\ (exists metric x,
         GCPMetricsFilter.observe ms
           (fst (setdefault r "c7n.metrics" (PyDict []))) = Ok (metric, x)
         /\ metrics_annotation r1 (GCPMetricsFilter.c7n_metric_key ms)
            = Some metric
         /\ exists metric2,
             metrics_annotation
               (fst (GCPMetricsFilter.process_resource ms r1))
               (GCPMetricsFilter.c7n_metric_key ms)
             = Some metric2
             /\ (forall m x2,
                    GCPMetricsFilter.observe ms r1 = Ok (m, x2) ->
                    metric2 = m)
             /\ (forall e,
                    GCPMetricsFilter.observe ms r1 = Raise e ->
                    metric2 = metric)
             /\ (jmespath_search (GCPMetricsFilter.resource_key ms)
                   (PyDict r1)
                 = jmespath_search (GCPMetricsFilter.resource_key ms)
                     (PyDict (fst (setdefault r "c7n.metrics" (PyDict []))))
                 -> metric2 = metric))
  /\ exists found annotated,
      SecurityComandCenterFindingsFilter.correlated fs q = Ok found
      /\ findings_annotation q1 = Some annotated
      /\ SecurityComandCenterFindingsFilter.process_resource fs q1
         = (rset q1 "c7n.findings" (PyList (annotated ++ found)%list), Ok c)
      /\ findings_annotation
           (fst (SecurityComandCenterFindingsFilter.process_resource fs q1))
         = Some (annotated ++ found)%list.
Proof.
  intros Hm Hf Hname.
  destruct (metrics_process_resource_inv _ _ _ _ Hm)
    as [(e & He & _)|(cont & metric & x & Hcont & Ho & -> & Hb)];
    [discriminate|].
  destruct (findings_process_resource_inv _ _ _ _ Hf)
    as (found & prior & Hfound & Hprior & -> & Hc).
  set (r0 := fst (setdefault r "c7n.metrics" (PyDict []))) in *.
  set (key := GCPMetricsFilter.c7n_metric_key ms) in *.
  set (r1 := rset r0 "c7n.metrics" (PyDict (rset cont key metric))).
  assert (Hpresent : rget r1 "c7n.metrics"
                     = Some (PyDict (rset cont key metric)))
    by apply rget_rset_same.
  pose proof (setdefault_present r1 _ (PyDict []) _ Hpresent) as Hsd.
  assert (Hfst : fst (setdefault r1 "c7n.metrics" (PyDict [])) = r1)
    by now rewrite Hsd.
  assert (Hsnd : snd (setdefault r1 "c7n.metrics" (PyDict []))
                 = PyDict (rset cont key metric)) by now rewrite Hsd.
  assert (Hentry : metrics_annotation r1 key = Some metric).
  { unfold metrics_annotation. rewrite Hpresent. apply rget_rset_same. }
  split; [|split; [|split]].
  - destruct (GCPMetricsFilter.observe ms r1) as [[metric2 x2]|e] eqn:Ho2.
    + rewrite <- Hfst in Ho2.
      rewrite (process_resource_observed ms r1 _ metric2 x2 Hsnd Ho2).
      cbn [fst]. rewrite Hfst. split.
      * apply (dict_keys_set_present String.eqb r1 _ _ _ Hpresent).
      * unfold metrics_annotation_keys.
        rewrite rget_rset_same, Hpresent. fold key.
        apply (dict_keys_set_present String.eqb _ _ _ metric).
        apply rget_rset_same.
    + rewrite <- Hfst in Ho2.
      rewrite (process_resource_observe_raises ms r1 e Ho2).
      cbn [fst]. now rewrite Hfst.
  - intros Hsearch.
    assert (Ho2 : GCPMetricsFilter.observe ms
                    (fst (setdefault r1 "c7n.metrics" (PyDict [])))
                  = Ok (metric, x)).
    { rewrite Hfst. unfold GCPMetricsFilter.observe in Ho |- *.
      now rewrite Hsearch. }
    rewrite (process_resource_observed ms r1 _ metric x Hsnd Ho2).
    rewrite Hfst. fold key. unfold r1 at 1.
    rewrite !rset_rset. now rewrite Hb.
  - exists metric, x. split; [exact Ho|]. split; [exact Hentry|].
    destruct (GCPMetricsFilter.observe ms r1) as [[metric2 x2]|e] eqn:Ho2.
    + exists metric2.
      assert (Ho2' : GCPMetricsFilter.observe ms
                       (fst (setdefault r1 "c7n.metrics" (PyDict [])))
                     = Ok (metric2, x2)) by now rewrite Hfst.
      rewrite (process_resource_observed ms r1 _ metric2 x2 Hsnd Ho2').
      cbn [fst]. split; [|split; [|split]].
      * unfold metrics_annotation. rewrite rget_rset_same. fold key.
        apply rget_rset_same.
      * now intros m x3 [= <- _].
      * discriminate.
      * intros Hsearch.
        unfold GCPMetricsFilter.observe in Ho, Ho2.
        rewrite Hsearch in Ho2. congruence.
    + exists metric.
      assert (Ho2' : GCPMetricsFilter.observe ms
                       (fst (setdefault r1 "c7n.metrics" (PyDict [])))
                     = Raise e) by now rewrite Hfst.
      rewrite (process_resource_observe_raises ms r1 e Ho2').
      cbn [fst]. rewrite Hfst. split; [exact Hentry|].
      split; [discriminate|]. split; reflexivity.
  - set (q0 := fst (setdefault q "c7n.findings" (PyList []))) in *.
    set (q1 := rset q0 "c7n.findings" (PyList (prior ++ found)%list)).
    assert (Hq : rget q1 "c7n.findings" = Some (PyList (prior ++ found)%list))
      by apply rget_rset_same.
    pose proof (setdefault_present q1 _ (PyList []) _ Hq) as Hsq.
    assert (Hfound1 : SecurityComandCenterFindingsFilter.correlated fs q1
                      = Ok found).
    { unfold SecurityComandCenterFindingsFilter.correlated, getitem in *.
      fold (rget q1 (SecurityComandCenterFindingsFilter.name fs)).
      fold (rget q (SecurityComandCenterFindingsFilter.name fs)) in Hfound.
      unfold q1. rewrite rget_rset.
      destruct (String.eqb_spec "c7n.findings"
                  (SecurityComandCenterFindingsFilter.name fs));
        [congruence|].
      unfold q0. rewrite setdefault_other by congruence. exact Hfound. }
    exists found, (prior ++ found)%list.
    split; [exact Hfound|]. split.
    + unfold findings_annotation. now rewrite Hq.
    + rewrite (process_resource_correlated fs q1 found (prior ++ found)%list
                 Hfound1); [|now rewrite Hsq].
      rewrite Hsq. cbn [fst snd]. rewrite Hc. split; [reflexivity|].
      unfold findings_annotation. now rewrite rget_rset_same.
Qed.

Lemma annotating_twice_witness :
  @GCPMetricsFilter.process_resource plain_host cpu_filter_fetched
    (fst (@GCPMetricsFilter.process_resource plain_host cpu_filter_fetched
            (vm "vm-1")))
  = (fst (@GCPMetricsFilter.process_resource plain_host cpu_filter_fetched
            (vm "vm-1")),
     Ok true)
  /\ metrics_annotation
       (fst (@GCPMetricsFilter.process_resource plain_host cpu_filter_fetched
               (vm "vm-1")))
       cpu_key
     = Some (cpu_series "vm-1" 0.05)
  /\ metrics_annotation
       (fst (@GCPMetricsFilter.process_resource plain_host cpu_filter_fetched
               (fst (@GCPMetricsFilter.process_resource plain_host
                       cpu_filter_fetched (vm "vm-1")))))
       cpu_key
     = Some (cpu_series "vm-1" 0.05)
  /\ findings_annotation
       (fst (@SecurityComandCenterFindingsFilter.process_resource plain_host
               bucket_filter_fetched
               (fst (@SecurityComandCenterFindingsFilter.process_resource
                       plain_host bucket_filter_fetched (vm "bucket-1")))))
     = Some [finding "//storage.googleapis.com/bucket-1" "X";
             finding "//storage.googleapis.com/bucket-1" "X"].
Proof.
  destruct (annotating_twice plain_host
              cpu_filter_fetched (vm "vm-1") _ true
              bucket_filter_fetched (vm "bucket-1") _ true
              eq_refl eq_refl)
    as (_ & Hidem
        & (metric & x & Ho & Hfirst & metric2 & Hsecond & _ & _ & Hsame)
        & found & annotated & Hfound & Hann & _ & Hgrow).
  - discriminate.
  - split; [exact (Hidem eq_refl)|].
    injection Ho as <- _. split; [exact Hfirst|].
    rewrite (Hsame eq_refl) in Hsecond. split; [exact Hsecond|].
    injection Hfound as <-. injection Hann as <-. exact Hgrow.
Defined.

(** ** The scenarios of the specification, run through [process] *)

(** Scenario A: one record below the threshold; the resource is
    retained and annotated with the record. *)
Example scenario_A :
  @GCPMetricsFilter.process plain_host cpu_policy
    (fun _ => Ok (PyDict [("timeSeries", PyList [cpu_series "vm-1" 0.05])]))
    [vm "vm-1"]
  = ([[("name", PyStr "vm-1");
       ("c7n.metrics", PyDict [(cpu_key, cpu_series "vm-1" 0.05)])]],
     Ok [[("name", PyStr "vm-1");
          ("c7n.metrics", PyDict [(cpu_key, cpu_series "vm-1" 0.05)])]]).
Proof. reflexivity. Qed.

(** Scenario B: no record; the default 0 is below the threshold. *)
Example scenario_B :
  @GCPMetricsFilter.process plain_host cpu_policy
    (fun _ => Ok (PyDict [("timeSeries", PyList [])]))
    [vm "vm-1"]
  = ([[("name", PyStr "vm-1"); ("c7n.metrics", PyDict [(cpu_key, PyNone)])]],
     Ok [[("name", PyStr "vm-1");
          ("c7n.metrics", PyDict [(cpu_key, PyNone)])]]).
Proof. reflexivity. Qed.

(** Scenario C: one finding for the bucket; retained, one annotation. *)
Example scenario_C :
  @SecurityComandCenterFindingsFilter.process plain_host bucket_filter
    (fun _ _ =>
       Ok (PyDict [("listFindingsResults",
                    PyList [finding "//storage.googleapis.com/bucket-1"
                              "X"])]))
    [vm "bucket-1"]
  = ([[("name", PyStr "bucket-1");
       ("c7n.findings",
        PyList [finding "//storage.googleapis.com/bucket-1" "X"])]],
     Ok [[("name", PyStr "bucket-1");
          ("c7n.findings",
           PyList [finding "//storage.googleapis.com/bucket-1" "X"])]]).
Proof. reflexivity. Qed.

(** Scenario D: no finding; dropped, with an empty annotation list. *)
Example scenario_D :
  @SecurityComandCenterFindingsFilter.process plain_host bucket_filter
    (fun _ _ => Ok (PyDict []))
    [vm "bucket-1"]
  = ([[("name", PyStr "bucket-1"); ("c7n.findings", PyList [])]], Ok []).
Proof. reflexivity. Qed.

(** * Further properties of the two filters *)

(** ** The builders *)

Lemma get_query_filter_nonempty_witness :
  @GCPMetricsFilter.get_query_filter plain_host cpu_filter
    [vm "vm-1"; vm "vm-2"; vm "vm-1"]
  = Ok (@query_head cpu_filter
          ++ join " OR "
               (map (@query_clause plain_host cpu_filter)
                  [PyStr "vm-1"; PyStr "vm-2"; PyStr "vm-1"])).
Proof.
  apply (@get_query_filter_nonempty plain_host cpu_filter).
  repeat constructor.
Defined.

Lemma get_resource_filter_nonempty_witness :
  @SecurityComandCenterFindingsFilter.get_resource_filter plain_host
    bucket_filter [vm "bucket-1"; vm "bucket-2"]
  = Ok (join " OR "
          (map (@resource_clause plain_host)
             [PyStr "bucket-1"; PyStr "bucket-2"])).
Proof.
  apply (@get_resource_filter_nonempty plain_host bucket_filter).
  repeat constructor.
Defined.

Lemma findings_append_clauses_missing (H : Host)
  (s : SecurityComandCenterFindingsFilter.self) (rs : list resource)
  (acc : list string) :
  (exists r, In r rs /\ rget r (SecurityComandCenterFindingsFilter.name s) = None) ->
  SecurityComandCenterFindingsFilter.append_clauses s rs acc = Raise KeyError.
Proof.
  revert acc; induction rs as [|r0 rs IH]; intros acc (r & Hin & Hr).
  - destruct Hin.
  - cbn [SecurityComandCenterFindingsFilter.append_clauses].
    unfold getitem. fold (rget r0 (SecurityComandCenterFindingsFilter.name s)).
    destruct (rget r0 (SecurityComandCenterFindingsFilter.name s)) eqn:Hr0;
      cbn [bind]; [|reflexivity].
    apply IH. destruct Hin as [->|Hin]; [congruence|].
    now exists r.
Qed.

(** X3.  A resource without the name field makes the findings builder
    raise [KeyError], wherever the resource stands in the list. *)
Theorem get_resource_filter_missing_name (H : Host)
  (s : SecurityComandCenterFindingsFilter.self) (rs : list resource)
  (r : resource) :
  In r rs ->
  rget r (SecurityComandCenterFindingsFilter.name s) = None ->
  SecurityComandCenterFindingsFilter.get_resource_filter s rs = Raise KeyError.
Proof.
  intros Hin Hr. unfold SecurityComandCenterFindingsFilter.get_resource_filter.
  rewrite (findings_append_clauses_missing H s rs []); [reflexivity|].
  now exists r.
Qed.

Lemma get_resource_filter_missing_name_witness :
  @SecurityComandCenterFindingsFilter.get_resource_filter plain_host
    bucket_filter [vm "bucket-1"; [("id", PyStr "bucket-2")]; vm "bucket-3"]
  = Raise KeyError.
Proof.
  apply (get_resource_filter_missing_name plain_host bucket_filter _
           [("id", PyStr "bucket-2")]).
  - right; left; reflexivity.
  - reflexivity.
Defined.

(** ** The configuration read by [process] *)

(** X4.  [process] gets past its configuration exactly when
    [timedelta(days)] and the time window give a result, ['name'],
    ['resource-key'], ['metric-key'] and ['value'] are given and the
    operator (['less-than'] when none is given) is in [OPERATORS].  What
    it raises otherwise is [KeyError] or what [timedelta] or the time
    window raised, and what [timedelta] raises comes before any
    [KeyError].  The aligner and the reducer it falls back to are in the
    enumerations of the schema. *)
Theorem configure_returns_iff (H : Host) (d : GCPMetricsFilter.data) :
  ((exists s, GCPMetricsFilter.configure d = Ok s)
   <-> (exists duration window,
           py_timedelta (get_default (GCPMetricsFilter.d_days d) 14)
           = Ok duration
           /\ time_window duration = Ok window)
       /\ GCPMetricsFilter.d_name d <> None
       /\ GCPMetricsFilter.d_resource_key d <> None
       /\ GCPMetricsFilter.d_metric_key d <> None
       /\ GCPMetricsFilter.d_value d <> None
       /\ OPERATORS (get_default (GCPMetricsFilter.d_op d) "less-than")
          <> None)
  /\ (forall e,
         GCPMetricsFilter.configure d = Raise e ->
         e = KeyError
         \/ py_timedelta (get_default (GCPMetricsFilter.d_days d) 14)
            = Raise e
         \/ exists duration,
             py_timedelta (get_default (GCPMetricsFilter.d_days d) 14)
             = Ok duration
             /\ time_window duration = Raise e)
  /\ (forall e,
         py_timedelta (get_default (GCPMetricsFilter.d_days d) 14) = Raise e ->
         GCPMetricsFilter.configure d = Raise e)
  /\ (forall s,
         GCPMetricsFilter.configure d = Ok s ->
         (GCPMetricsFilter.d_aligner d = None ->
          In (GCPMetricsFilter.aligner s) ALIGNERS)
         /\ (GCPMetricsFilter.d_reducer d = None ->
             In (GCPMetricsFilter.reducer s) REDUCERS)).
Proof.
  unfold GCPMetricsFilter.configure.
  destruct (py_timedelta (get_default (GCPMetricsFilter.d_days d) 14))
    as [duration|e0]; cbn [bind].
  - destruct (GCPMetricsFilter.d_name d) as [n|];
      destruct (GCPMetricsFilter.d_resource_key d) as [rk|];
      destruct (GCPMetricsFilter.d_metric_key d) as [mk|];
      cbn [item bind];
      try (split; [split; [intros [s Hs]; discriminate
                          |intros (_ & H1 & H2 & H3 & _); congruence]
                  |split; [intros e [= <-]; now left
                          |split; [discriminate | discriminate]]]).
    destruct (time_window duration) as [window|e1] eqn:Hw; cbn [bind].
    + destruct (OPERATORS
                  (get_default (GCPMetricsFilter.d_op d) "less-than"))
        as [f|];
        destruct (GCPMetricsFilter.d_value d) as [v|];
        cbn [item bind];
        try (split; [split; [intros [s Hs]; discriminate
                            |intros (_ & _ & _ & _ & H4 & H5); congruence]
                    |split; [intros e [= <-]; now left
                            |split; [discriminate | discriminate]]]).
      split; [split|split; [discriminate|split; [discriminate|]]].
      * intros _. split; [now exists duration, window|].
        repeat split; discriminate.
      * intros _. eexists; reflexivity.
      * intros s [= <-]. cbn. split; intros ->; cbn; auto.
    + split; [split|split; [|split; [discriminate | discriminate]]].
      * intros [s Hs]. discriminate.
      * intros ((du & w & [= <-] & Hw') & _). congruence.
      * intros e [= <-]. right; right. now exists duration.
  - split; [split|split; [|split; [|discriminate]]].
    + intros [s Hs]. discriminate.
    + intros ((du & w & Hdu & _) & _). discriminate.
    + intros e [= <-]. right; now left.
    + intros e [= <-]. reflexivity.
Qed.

(** ** A run of the threshold filter *)

(** X5.  A response of the monitoring client that has no
    ['timeSeries'] entry makes [process] raise [KeyError]: no resource is
    evaluated or annotated. *)
Theorem process_without_time_series (H : Host) (d : GCPMetricsFilter.data)
  (s : GCPMetricsFilter.self) (client : string -> result pyobj)
  (rs : list resource) (query_filter : string) (response : pydict) :
  GCPMetricsFilter.configure d = Ok s ->
  GCPMetricsFilter.get_query_filter s rs = Ok query_filter ->
  client query_filter = Ok (PyDict response) ->
  rget response "timeSeries" = None ->
  GCPMetricsFilter.process d client rs = (rs, Raise KeyError).
Proof.
  intros Hs Hq Hc Ht. unfold GCPMetricsFilter.process.
  rewrite Hs. cbn [bind]. rewrite Hq. cbn [bind]. rewrite Hc. cbn [bind].
  unfold getitem. fold (rget response "timeSeries"). now rewrite Ht.
Qed.

Lemma process_without_time_series_witness :
  @GCPMetricsFilter.process plain_host cpu_policy
    (fun _ => Ok (PyDict [("unit", PyStr "10^2.%")])) [vm "vm-1"]
  = ([vm "vm-1"], Raise KeyError).
Proof.
  apply (process_without_time_series plain_host cpu_policy cpu_filter _ _
           (@query_head cpu_filter
              ++ @query_clause plain_host cpu_filter (PyStr "vm-1"))
           [("unit", PyStr "10^2.%")]);
    reflexivity.
Defined.

(** X6.  When the threshold evaluator decides on every resource, the
    loop of [process] leaves every resource annotated, in the order
    given, and returns the annotated resources it decided to retain, in
    that order. *)
Theorem matched_all_decided (H : Host) (s : GCPMetricsFilter.self)
  (rs : list resource) :
  (forall r, In r rs ->
             exists b, snd (GCPMetricsFilter.process_resource s r) = Ok b) ->
  GCPMetricsFilter.matched s rs
  = (metrics_annotated s rs, Ok (metrics_retained s rs)).
Proof.
  induction rs as [|r rs IH]; intros Hrs; [reflexivity|].
  destruct (Hrs r (or_introl eq_refl)) as [b Hb].
  cbn [GCPMetricsFilter.matched metrics_annotated metrics_retained
         map flat_map].
  destruct (GCPMetricsFilter.process_resource s r) as [r' res].
  cbn [snd] in Hb. subst res.
  rewrite IH by (intros r0 Hr0; apply Hrs; now right).
  cbn [fst]. now destruct b.
Qed.

Lemma matched_all_decided_witness :
  @GCPMetricsFilter.matched plain_host cpu_filter_fetched
    [vm "vm-1"; vm "vm-4"]
  = (@metrics_annotated plain_host cpu_filter_fetched [vm "vm-1"; vm "vm-4"],
     Ok (@metrics_retained plain_host cpu_filter_fetched
           [vm "vm-1"; vm "vm-4"])).
Proof.
  apply (matched_all_decided plain_host cpu_filter_fetched).
  intros r [<-|[<-|[]]]; eexists; reflexivity.
Defined.

(** X7.  The loop of [process] stops at the first resource on which the
    threshold evaluator raises: the exception is the result, the
    resources before it stay annotated and the ones after it are not
    touched. *)
Theorem matched_stops_at_raise (H : Host) (s : GCPMetricsFilter.self)
  (rs1 rs2 : list resource) (r : resource) (e : exn) :
  (forall r0, In r0 rs1 ->
              exists b, snd (GCPMetricsFilter.process_resource s r0) = Ok b) ->
  snd (GCPMetricsFilter.process_resource s r) = Raise e ->
  GCPMetricsFilter.matched s (rs1 ++ r :: rs2)%list
  = ((metrics_annotated s rs1
        ++ fst (GCPMetricsFilter.process_resource s r) :: rs2)%list,
     Raise e).
Proof.
  intros Hrs1 Hr. induction rs1 as [|r0 rs1 IH].
  - cbn [app GCPMetricsFilter.matched metrics_annotated map].
    destruct (GCPMetricsFilter.process_resource s r) as [r' res].
    cbn [snd fst] in *. now subst res.
  - destruct (Hrs1 r0 (or_introl eq_refl)) as [b Hb].
    cbn [app GCPMetricsFilter.matched metrics_annotated map].
    destruct (GCPMetricsFilter.process_resource s r0) as [r0' res].
    cbn [snd] in Hb. subst res.
    fold (metrics_annotated s rs1).
    rewrite IH by (intros r1 Hr1; apply Hrs1; now right).
    reflexivity.
Qed.

Lemma matched_stops_at_raise_witness :
  @GCPMetricsFilter.matched plain_host cpu_filter_fetched
    [vm "vm-1"; vm "vm-3"; vm "vm-4"]
  = ((@metrics_annotated plain_host cpu_filter_fetched [vm "vm-1"]
        ++ [fst (@GCPMetricsFilter.process_resource plain_host
                   cpu_filter_fetched (vm "vm-3"));
            vm "vm-4"])%list,
     Raise KeyError).
Proof.
  apply (matched_stops_at_raise plain_host cpu_filter_fetched
           [vm "vm-1"] [vm "vm-4"] (vm "vm-3") KeyError).
  - intros r [<-|[]]; eexists; reflexivity.
  - reflexivity.
Defined.

Lemma process_resource_absent (H : Host) (s : GCPMetricsFilter.self)
  (r : resource) (k : pyobj) :
  metrics_container_ok r = true ->
  jmespath_search (GCPMetricsFilter.resource_key s)
    (PyDict (fst (setdefault r "c7n.metrics" (PyDict [])))) = Ok k ->
  hashable k = true ->
  dict_get key_eqb (GCPMetricsFilter.resource_metric_dict s) k = None ->
  snd (GCPMetricsFilter.process_resource s r)
  = GCPMetricsFilter.op s (GCPMetricsFilter.missing_value s)
      (GCPMetricsFilter.value s)
  /\ metrics_annotation (fst (GCPMetricsFilter.process_resource s r))
       (GCPMetricsFilter.c7n_metric_key s)
     = Some PyNone.
Proof.
  intros Hok Hk Hh Hd.
  destruct (setdefault_metrics_container r Hok) as [c Hcont].
  pose proof (observe_absent s _ k Hk Hh Hd) as Ho.
  rewrite (process_resource_observed s r c _ _ Hcont Ho).
  cbn [fst snd]. split; [reflexivity|].
  unfold metrics_annotation. rewrite rget_rset_same. apply rget_rset_same.
Qed.

(** X8.  When no record was fetched, every resource is decided by the
    operator on the default value and the threshold: the resources are
    all retained or all dropped, each annotated with [None]. *)
Theorem default_decides_for_all (H : Host) (s : GCPMetricsFilter.self)
  (rs : list resource) (b : bool) :
  GCPMetricsFilter.resource_metric_dict s = [] ->
  (forall r, In r rs ->
     metrics_container_ok r = true
     /\ exists k,
         jmespath_search (GCPMetricsFilter.resource_key s)
           (PyDict (fst (setdefault r "c7n.metrics" (PyDict [])))) = Ok k
         /\ hashable k = true) ->
  GCPMetricsFilter.op s (GCPMetricsFilter.missing_value s)
    (GCPMetricsFilter.value s) = Ok b ->
  GCPMetricsFilter.matched s rs
  = (metrics_annotated s rs, Ok (if b then metrics_annotated s rs else []))
  /\ forall r, In r rs ->
       metrics_annotation (fst (GCPMetricsFilter.process_resource s r))
         (GCPMetricsFilter.c7n_metric_key s)
       = Some PyNone.
Proof.
  intros Hempty Hrs Hop.
  assert (Hone : forall r, In r rs ->
            snd (GCPMetricsFilter.process_resource s r) = Ok b
            /\ metrics_annotation (fst (GCPMetricsFilter.process_resource s r))
                 (GCPMetricsFilter.c7n_metric_key s) = Some PyNone).
  { intros r Hr. destruct (Hrs r Hr) as (Hok & k & Hk & Hh).
    rewrite <- Hop. apply (process_resource_absent H s r k Hok Hk Hh).
    now rewrite Hempty. }
  split; [|intros r Hr; apply (Hone r Hr)].
  clear Hrs. induction rs as [|r rs IH]; [now destruct b|].
  destruct (Hone r (or_introl eq_refl)) as [Hb _].
  cbn [GCPMetricsFilter.matched metrics_annotated map].
  destruct (GCPMetricsFilter.process_resource s r) as [r' res].
  cbn [snd] in Hb. subst res.
  fold (metrics_annotated s rs).
  rewrite IH by (intros r0 Hr0; apply Hone; now right).
  cbn [fst]. now destruct b.
Qed.

Lemma default_decides_for_all_witness :
  @GCPMetricsFilter.matched plain_host cpu_filter [vm "vm-1"; vm "vm-2"]
  = (@metrics_annotated plain_host cpu_filter [vm "vm-1"; vm "vm-2"],
     Ok (@metrics_annotated plain_host cpu_filter [vm "vm-1"; vm "vm-2"])).
Proof.
  apply (default_decides_for_all plain_host cpu_filter
           [vm "vm-1"; vm "vm-2"] true).
  - reflexivity.
  - intros r [<-|[<-|[]]]; (split; [reflexivity|]); eexists; split;
      reflexivity.
  - reflexivity.
Defined.

(** ** One call of the threshold evaluator *)

Lemma setdefault_cases (r : pydict) (k : string) (d : pyobj) :
  (exists v, rget r k = Some v /\ setdefault r k d = (r, v))
  \/ (rget r k = None /\ setdefault r k d = (rset r k d, d)).
Proof.
  unfold setdefault. destruct (rget r k) as [v|]; [left|right]; eauto.
Qed.

Lemma metrics_annotation_setdefault (r : resource) (k : string) :
  metrics_annotation (fst (setdefault r "c7n.metrics" (PyDict []))) k
  = metrics_annotation r k.
Proof.
  unfold metrics_annotation.
  destruct (setdefault_cases r "c7n.metrics" (PyDict []))
    as [(v & Hv & ->)|(Hnone & ->)]; cbn [fst]; [reflexivity|].
  now rewrite rget_rset_same, Hnone.
Qed.

Lemma metrics_container_setdefault (r : resource) (c : pydict) (k : string) :
  snd (setdefault r "c7n.metrics" (PyDict [])) = PyDict c ->
  rget c k = metrics_annotation r k.
Proof.
  unfold metrics_annotation.
  destruct (setdefault_cases r "c7n.metrics" (PyDict []))
    as [(v & Hv & ->)|(Hnone & ->)]; cbn [snd].
  - intros ->. now rewrite Hv.
  - intros [= <-]. now rewrite Hnone.
Qed.

(** X9.  Whatever it returns or raises, a call of the threshold
    evaluator leaves every field of the resource other than
    ['c7n.metrics'] as it was, and every entry of ['c7n.metrics'] other
    than the one at its composite key. *)
Theorem metrics_process_resource_frame (H : Host)
  (s : GCPMetricsFilter.self) (r : resource) :
  (forall k, k <> "c7n.metrics" ->
     rget (fst (GCPMetricsFilter.process_resource s r)) k = rget r k)
  /\ (forall k, k <> GCPMetricsFilter.c7n_metric_key s ->
        metrics_annotation (fst (GCPMetricsFilter.process_resource s r)) k
        = metrics_annotation r k).
Proof.
  destruct (GCPMetricsFilter.process_resource s r) as [r' b] eqn:Hp.
  cbn [fst].
  destruct (metrics_process_resource_inv _ _ _ _ Hp)
    as [(e & _ & ->)|(c & metric & x & Hcont & _ & -> & _)].
  - split; intros k Hk.
    + apply setdefault_other. congruence.
    + apply metrics_annotation_setdefault.
  - split; intros k Hk.
    + rewrite rget_rset.
      destruct (String.eqb_spec "c7n.metrics" k); [congruence|].
      apply setdefault_other. congruence.
    + unfold metrics_annotation at 1. rewrite rget_rset_same, rget_rset.
      destruct (String.eqb_spec (GCPMetricsFilter.c7n_metric_key s) k);
        [congruence|].
      now apply metrics_container_setdefault.
Qed.

Lemma first_value_observed (H : Host) (metric v : pyobj) :
  first_value metric = Some v ->
  truthy metric = true
  /\ GCPMetricsFilter.first_point_value metric = py_float v.
Proof.
  unfold first_value, GCPMetricsFilter.first_point_value, getitem.
  destruct metric as [| | | | |d]; try discriminate.
  fold (rget d "points").
  destruct (rget d "points") as [[| | | |[|[| | | | |p] ps]|]|] eqn:Hp;
    try discriminate.
  cbn [bind getitem0]. fold (rget p "value").
  destruct (rget p "value") as [[| | | | |[|[n v0] vs]]|]; try discriminate.
  intros [= <-]. split; [|reflexivity].
  destruct d; [discriminate|reflexivity].
Qed.

(** X10.  Of a correlated record the threshold evaluator reads the
    first value of the first point and nothing else: the decision is the
    operator on that value, as a number, and the threshold, and the
    record is the annotation. *)
Theorem threshold_reads_first_value (H : Host) (s : GCPMetricsFilter.self)
  (r : resource) (k metric v : pyobj) (x : Q) :
  metrics_container_ok r = true ->
  jmespath_search (GCPMetricsFilter.resource_key s)
    (PyDict (fst (setdefault r "c7n.metrics" (PyDict [])))) = Ok k ->
  hashable k = true ->
  dict_get key_eqb (GCPMetricsFilter.resource_metric_dict s) k = Some metric ->
  first_value metric = Some v ->
  py_float v = Ok x ->
  snd (GCPMetricsFilter.process_resource s r)
  = GCPMetricsFilter.op s x (GCPMetricsFilter.value s)
  /\ metrics_annotation (fst (GCPMetricsFilter.process_resource s r))
       (GCPMetricsFilter.c7n_metric_key s)
     = Some metric.
Proof.
  intros Hok Hk Hh Hd Hv Hx.
  destruct (first_value_observed H metric v Hv) as [Ht Hf].
  destruct (setdefault_metrics_container r Hok) as [c Hcont].
  assert (Ho : GCPMetricsFilter.observe s
                 (fst (setdefault r "c7n.metrics" (PyDict [])))
               = Ok (metric, x)).
  { unfold GCPMetricsFilter.observe, GCPMetricsFilter.index_get.
    rewrite Hk. cbn [bind]. rewrite Hh, Hd. cbn [get_default bind].
    rewrite Ht. cbn [negb]. rewrite Hf, Hx. reflexivity. }
  rewrite (process_resource_observed s r c _ _ Hcont Ho).
  cbn [fst snd]. split; [reflexivity|].
  unfold metrics_annotation. rewrite rget_rset_same. apply rget_rset_same.
Qed.

Lemma threshold_reads_first_value_witness :
  snd (@GCPMetricsFilter.process_resource plain_host cpu_filter_fetched
         (vm "vm-1"))
  = operator_lt 0.05 0.1
  /\ metrics_annotation
       (fst (@GCPMetricsFilter.process_resource plain_host
               cpu_filter_fetched (vm "vm-1")))
       cpu_key
     = Some (cpu_series "vm-1" 0.05).
Proof.
  apply (threshold_reads_first_value plain_host cpu_filter_fetched
           (vm "vm-1") (PyStr "vm-1") (cpu_series "vm-1" 0.05)
           (PyNum 0.05) 0.05);
    reflexivity.
Defined.

(** X11.  A correlated record whose first value is [None], a list or a
    mapping, as a distribution value is, makes the threshold evaluator
    raise [TypeError]; one whose first value is a number [float()]
    rejects makes it raise what [float()] raises.  Either way no
    annotation entry is written. *)
Theorem first_value_not_a_number (H : Host) (s : GCPMetricsFilter.self)
  (r : resource) (k metric v : pyobj) :
  jmespath_search (GCPMetricsFilter.resource_key s)
    (PyDict (fst (setdefault r "c7n.metrics" (PyDict [])))) = Ok k ->
  hashable k = true ->
  dict_get key_eqb (GCPMetricsFilter.resource_metric_dict s) k = Some metric ->
  first_value metric = Some v ->
  (v = PyNone \/ (exists l, v = PyList l) \/ (exists d, v = PyDict d) ->
   GCPMetricsFilter.process_resource s r
   = (fst (setdefault r "c7n.metrics" (PyDict [])), Raise TypeError))
  /\ (forall q e,
         v = PyNum q -> float_of_num q = Raise e ->
         GCPMetricsFilter.process_resource s r
         = (fst (setdefault r "c7n.metrics" (PyDict [])), Raise e)).
Proof.
  intros Hk Hh Hd Hv.
  destruct (first_value_observed H metric v Hv) as [Ht Hf].
  assert (Hraise : forall e, py_float v = Raise e ->
            GCPMetricsFilter.process_resource s r
            = (fst (setdefault r "c7n.metrics" (PyDict [])), Raise e)).
  { intros e He. apply process_resource_observe_raises.
    unfold GCPMetricsFilter.observe, GCPMetricsFilter.index_get.
    rewrite Hk. cbn [bind]. rewrite Hh, Hd. cbn [get_default bind].
    rewrite Ht. cbn [negb]. rewrite Hf, He. reflexivity. }
  split.
  - intros [->|[[l ->]|[d ->]]]; now apply Hraise.
  - intros q e -> Hq. now apply Hraise.
Qed.

Lemma first_value_not_a_number_witness :
  @GCPMetricsFilter.process_resource plain_host
    (GCPMetricsFilter.with_resource_metric_dict cpu_filter
       [(PyStr "vm-5", distribution_series "vm-5")])
    (vm "vm-5")
  = ([("name", PyStr "vm-5"); ("c7n.metrics", PyDict [])], Raise TypeError).
Proof.
  apply (proj1 (first_value_not_a_number plain_host
                  (GCPMetricsFilter.with_resource_metric_dict cpu_filter
                     [(PyStr "vm-5", distribution_series "vm-5")])
                  (vm "vm-5") (PyStr "vm-5") (distribution_series "vm-5")
                  (PyDict [("count", PyStr "12")])
                  eq_refl eq_refl eq_refl eq_refl)).
  right; right. eexists; reflexivity.
Defined.

(** X12.  A resource whose ['c7n.metrics'] field is there and is not a
    dictionary gets no decision: the threshold evaluator raises and
    leaves the resource as it was, with [TypeError] once the value was
    observed. *)
Theorem metrics_container_not_a_dict (H : Host) (s : GCPMetricsFilter.self)
  (r : resource) (v : pyobj) :
  rget r "c7n.metrics" = Some v ->
  (forall c, v <> PyDict c) ->
  exists e,
    GCPMetricsFilter.process_resource s r = (r, Raise e)
    /\ (forall metric x,
           GCPMetricsFilter.observe s r = Ok (metric, x) -> e = TypeError).
Proof.
  intros Hv Hnot. unfold GCPMetricsFilter.process_resource.
  rewrite (setdefault_present r _ (PyDict []) v Hv).
  destruct (GCPMetricsFilter.observe s r) as [[metric x]|e].
  - exists TypeError. split; [|reflexivity].
    destruct v; try reflexivity. now destruct (Hnot d).
  - exists e. split; [reflexivity|discriminate].
Qed.

Lemma metrics_container_not_a_dict_witness :
  exists e,
    @GCPMetricsFilter.process_resource plain_host cpu_filter_fetched
      [("name", PyStr "vm-1"); ("c7n.metrics", PyList [])]
    = ([("name", PyStr "vm-1"); ("c7n.metrics", PyList [])], Raise e)
    /\ (forall metric x,
           @GCPMetricsFilter.observe plain_host cpu_filter_fetched
             [("name", PyStr "vm-1"); ("c7n.metrics", PyList [])]
           = Ok (metric, x) ->
           e = TypeError).
Proof.
  apply (metrics_container_not_a_dict plain_host cpu_filter_fetched _
           (PyList [])).
  - reflexivity.
  - discriminate.
Defined.

(** ** The composite annotation key *)

Lemma has_char_append (c : ascii) (a b : string) :
  has_char c (a ++ b) = has_char c a || has_char c b.
Proof.
  induction a as [|x a IH]; cbn [append has_char]; [reflexivity|].
  now rewrite IH, orb_assoc.
Qed.

Lemma has_char_separator (c : ascii) (a b : string) :
  has_char c (a ++ String c b) = true.
Proof.
  rewrite has_char_append. cbn [has_char]. rewrite Ascii.eqb_refl.
  apply orb_true_r.
Qed.

(** A string is cut at its last separator in one way only. *)
Lemma last_separator_unique (c : ascii) (s1 s2 t1 t2 : string) :
  has_char c t1 = false -> has_char c t2 = false ->
  s1 ++ String c t1 = s2 ++ String c t2 ->
  s1 = s2 /\ t1 = t2.
Proof.
  intros Ht1 Ht2. revert s2.
  induction s1 as [|x s1 IH]; intros [|y s2]; cbn [append].
  - now intros [= ->].
  - intros [= <- ->]. now rewrite has_char_separator in Ht1.
  - intros [= -> <-]. now rewrite has_char_separator in Ht2.
  - intros [= -> Heq]. destruct (IH s2 Heq) as [-> ->]. now split.
Qed.

Lemma mode_has_no_dot (a : string) :
  In a ALIGNERS \/ In a REDUCERS -> has_char "."%char a = false.
Proof.
  assert (Hall : forallb (fun x => negb (has_char "."%char x))
                   (ALIGNERS ++ REDUCERS)%list = true) by reflexivity.
  rewrite forallb_forall in Hall. intros Ha.
  apply negb_true_iff, Hall, in_or_app. exact Ha.
Qed.

Lemma c7n_metric_key_cut (s : GCPMetricsFilter.self) :
  GCPMetricsFilter.c7n_metric_key s
  = (GCPMetricsFilter.metric s
       ++ String "."%char (GCPMetricsFilter.aligner s))
      ++ String "."%char (GCPMetricsFilter.reducer s).
Proof.
  unfold GCPMetricsFilter.c7n_metric_key. now rewrite append_assoc.
Qed.

(** X13.  With aligners and reducers taken from [ALIGNERS] and
    [REDUCERS], the composite key ["%s.%s.%s"] tells the metric, the
    aligner and the reducer apart: two filters that differ in one of them
    annotate under different keys. *)
Theorem c7n_metric_key_injective (s1 s2 : GCPMetricsFilter.self) :
  In (GCPMetricsFilter.aligner s1) ALIGNERS ->
  In (GCPMetricsFilter.reducer s1) REDUCERS ->
  In (GCPMetricsFilter.aligner s2) ALIGNERS ->
  In (GCPMetricsFilter.reducer s2) REDUCERS ->
  GCPMetricsFilter.c7n_metric_key s1 = GCPMetricsFilter.c7n_metric_key s2 ->
  GCPMetricsFilter.metric s1 = GCPMetricsFilter.metric s2
  /\ GCPMetricsFilter.aligner s1 = GCPMetricsFilter.aligner s2
  /\ GCPMetricsFilter.reducer s1 = GCPMetricsFilter.reducer s2.
Proof.
  intros Ha1 Hr1 Ha2 Hr2. rewrite !c7n_metric_key_cut.
  intros Heq.
  apply last_separator_unique in Heq;
    [|apply mode_has_no_dot; now right..].
  destruct Heq as [Heq ->].
  apply last_separator_unique in Heq;
    [|apply mode_has_no_dot; now left..].
  destruct Heq as [-> ->]. now repeat split.
Qed.

Lemma c7n_metric_key_injective_witness :
  GCPMetricsFilter.metric cpu_filter = GCPMetricsFilter.metric cpu_filter_fetched
  /\ GCPMetricsFilter.aligner cpu_filter
     = GCPMetricsFilter.aligner cpu_filter_fetched
  /\ GCPMetricsFilter.reducer cpu_filter
     = GCPMetricsFilter.reducer cpu_filter_fetched.
Proof.
  apply (c7n_metric_key_injective cpu_filter cpu_filter_fetched).
  - cbn. tauto.
  - cbn. tauto.
  - cbn. tauto.
  - cbn. tauto.
  - reflexivity.
Defined.

(** ** From the fetched records to the annotation *)

Lemma key_eqb_refl (k : pyobj) : hashable k = true -> key_eqb k k = true.
Proof.
  destruct k; cbn; try discriminate; intros _;
    try reflexivity; try apply Qeq_bool_refl; try apply String.eqb_refl.
Qed.

(** X14.  After the records are indexed, a resource that gets a decision
    is annotated with the last fetched record bearing the resource's key,
    or with [None] when no fetched record bears it. *)
Theorem fetched_record_annotated (H : Host) (s s' : GCPMetricsFilter.self)
  (ms : list pyobj) (r r' : resource) (b : bool) (k : pyobj) :
  GCPMetricsFilter.resource_metric_dict s = [] ->
  GCPMetricsFilter.split_by_resource s ms = Ok s' ->
  GCPMetricsFilter.process_resource s' r = (r', Ok b) ->
  jmespath_search (GCPMetricsFilter.resource_key s)
    (PyDict (fst (setdefault r "c7n.metrics" (PyDict [])))) = Ok k ->
  metrics_annotation r' (GCPMetricsFilter.c7n_metric_key s)
  = Some (get_default (last_bearing (GCPMetricsFilter.metric_key s) k ms)
            PyNone).
Proof.
  intros Hempty Hs Hp Hk.
  pose proof (split_by_resource_fields ms s s' Hs) as Hfields.
  pose proof (split_by_resource_get ms s s' k Hs) as Hget.
  rewrite Hempty in Hget.
  destruct (metrics_process_resource_inv _ _ _ _ Hp)
    as [(e & He & _)|(c & metric & x & Hcont & Ho & -> & _)];
    [discriminate|].
  rewrite Hfields in Ho |- *.
  unfold GCPMetricsFilter.observe, GCPMetricsFilter.index_get in Ho.
  cbn [GCPMetricsFilter.resource_key
         GCPMetricsFilter.with_resource_metric_dict
         GCPMetricsFilter.resource_metric_dict] in Ho.
  rewrite Hk in Ho. cbn [bind] in Ho.
  destruct (hashable k); [|discriminate]. cbn [bind] in Ho.
  rewrite Hget in Ho.
  assert (Hm : metric
               = get_default
                   (last_bearing (GCPMetricsFilter.metric_key s) k ms)
                   PyNone).
  { destruct (last_bearing (GCPMetricsFilter.metric_key s) k ms) as [m|];
      cbn [get_default dict_get] in Ho |- *;
      destruct (negb (truthy _)) in Ho;
      try (injection Ho as <- _; reflexivity);
      destruct (GCPMetricsFilter.first_point_value _) in Ho;
      try discriminate; injection Ho as <- _; reflexivity. }
  subst metric. unfold metrics_annotation.
  rewrite rget_rset_same.
  change (GCPMetricsFilter.c7n_metric_key
            (GCPMetricsFilter.with_resource_metric_dict s
               (GCPMetricsFilter.resource_metric_dict s')))
    with (GCPMetricsFilter.c7n_metric_key s).
  apply rget_rset_same.
Qed.

Lemma fetched_record_annotated_witness :
  metrics_annotation
    (fst (@GCPMetricsFilter.process_resource plain_host
            (GCPMetricsFilter.with_resource_metric_dict cpu_filter
               [(PyStr "vm-1", cpu_series "vm-1" 0.07);
                (PyStr "vm-2", cpu_series "vm-2" 0.5)])
            (vm "vm-1")))
    cpu_key
  = Some (cpu_series "vm-1" 0.07).
Proof.
  apply (fetched_record_annotated plain_host cpu_filter
           (GCPMetricsFilter.with_resource_metric_dict cpu_filter
              [(PyStr "vm-1", cpu_series "vm-1" 0.07);
               (PyStr "vm-2", cpu_series "vm-2" 0.5)])
           [cpu_series "vm-1" 0.05; cpu_series "vm-2" 0.5;
            cpu_series "vm-1" 0.07]
           (vm "vm-1") _ true (PyStr "vm-1"));
    reflexivity.
Defined.

Lemma in_dict_set {K V : Type} (keq : K -> K -> bool) (d : list (K * V))
  (k k' : K) (v v' : V) :
  In (k', v') (dict_set keq d k v) ->
  In (k', v') d \/ (v' = v /\ (k' = k \/ keq k' k = true)).
Proof.
  induction d as [|[k0 v0] d IH]; cbn [dict_set].
  - intros [[= <- <-]|[]]. right. split; [reflexivity | now left].
  - destruct (keq k0 k) eqn:Hk0.
    + intros [[= <- <-]|Hin].
      * right. split; [reflexivity | now right].
      * left. now right.
    + intros [Heq|Hin].
      * left. now left.
      * destruct (IH Hin) as [Hd|Hnew]; [left; now right | now right].
Qed.

Lemma length_dict_set {K V : Type} (keq : K -> K -> bool) (d : list (K * V))
  (k : K) (v : V) :
  (List.length (dict_set keq d k v) <= S (List.length d))%nat.
Proof.
  induction d as [|[k0 v0] d IH]; cbn [dict_set]; [cbn; lia|].
  destruct (keq k0 k); cbn [List.length]; lia.
Qed.

Lemma metrics_index_entries_from (H : Host) (ms : list pyobj)
  (s s' : GCPMetricsFilter.self) :
  GCPMetricsFilter.split_by_resource s ms = Ok s' ->
  (forall k m,
      In (k, m) (GCPMetricsFilter.resource_metric_dict s') ->
      In (k, m) (GCPMetricsFilter.resource_metric_dict s)
      \/ (In m ms /\ bears_key (GCPMetricsFilter.metric_key s) k m = true))
  /\ (List.length (GCPMetricsFilter.resource_metric_dict s')
      <= List.length (GCPMetricsFilter.resource_metric_dict s)
         + List.length ms)%nat.
Proof.
  revert s; induction ms as [|m0 ms IH]; intros s;
    cbn [GCPMetricsFilter.split_by_resource].
  - intros [= ->]. split; [now left | lia].
  - destruct (jmespath_search (GCPMetricsFilter.metric_key s) m0)
      as [k0|] eqn:Hk0; [|discriminate].
    cbn [bind]. unfold GCPMetricsFilter.index_set.
    destruct (hashable k0) eqn:Hh; [|discriminate].
    cbn [bind]. intros Hs. destruct (IH _ Hs) as [Hin Hlen].
    cbn [GCPMetricsFilter.resource_metric_dict
           GCPMetricsFilter.with_resource_metric_dict
           GCPMetricsFilter.metric_key] in Hin, Hlen.
    split.
    + intros k m Hkm. destruct (Hin k m Hkm) as [Hset|[Hm Hb]].
      * destruct (in_dict_set _ _ _ _ _ _ Hset) as [Hd|[-> Hk]];
          [now left|].
        right. split; [now left|]. unfold bears_key. rewrite Hk0.
        destruct Hk as [->|Hk]; [now apply key_eqb_refl|].
        now rewrite key_eqb_sym.
      * right. split; [now right | exact Hb].
    + pose proof (length_dict_set key_eqb
                    (GCPMetricsFilter.resource_metric_dict s) k0 m0).
      cbn [List.length]. lia.
Qed.

(** X15.  The index the metrics correlator builds from an empty one
    holds fetched records only, each under a key it bears, and has no
    more entries than records were fetched. *)
Theorem metrics_index_entries (H : Host) (ms : list pyobj)
  (s s' : GCPMetricsFilter.self) :
  GCPMetricsFilter.resource_metric_dict s = [] ->
  GCPMetricsFilter.split_by_resource s ms = Ok s' ->
  (forall k m,
      In (k, m) (GCPMetricsFilter.resource_metric_dict s') ->
      In m ms /\ bears_key (GCPMetricsFilter.metric_key s) k m = true)
  /\ (List.length (GCPMetricsFilter.resource_metric_dict s')
      <= List.length ms)%nat.
Proof.
  intros Hempty Hs.
  destruct (metrics_index_entries_from H ms s s' Hs) as [Hin Hlen].
  rewrite Hempty in Hin, Hlen. split.
  - intros k m Hkm. destruct (Hin k m Hkm) as [[]|Hm]. exact Hm.
  - exact Hlen.
Qed.

Lemma metrics_index_entries_witness :
  (forall k m,
      In (k, m)
        [(PyStr "vm-1", cpu_series "vm-1" 0.07);
         (PyStr "vm-2", cpu_series "vm-2" 0.5)] ->
      In m [cpu_series "vm-1" 0.05; cpu_series "vm-2" 0.5;
            cpu_series "vm-1" 0.07]
      /\ @bears_key plain_host "metric.labels.instance_name" k m = true)
  /\ (2 <= 3)%nat.
Proof.
  apply (metrics_index_entries plain_host
           [cpu_series "vm-1" 0.05; cpu_series "vm-2" 0.5;
            cpu_series "vm-1" 0.07]
           cpu_filter
           (GCPMetricsFilter.with_resource_metric_dict cpu_filter
              [(PyStr "vm-1", cpu_series "vm-1" 0.07);
               (PyStr "vm-2", cpu_series "vm-2" 0.5)]));
    reflexivity.
Defined.

(** ** The name a finding is filed under *)

Lemma split_char_no_separator (c : ascii) (s : string) :
  has_char c s = false -> split_char c s = [s].
Proof.
  induction s as [|a s IH]; cbn [has_char split_char]; [reflexivity|].
  destruct (Ascii.eqb a c); [discriminate|].
  cbn [orb]. intros Hs. now rewrite IH.
Qed.

Lemma split_char_nonempty (c : ascii) (s : string) :
  exists h t, split_char c s = h :: t.
Proof.
  destruct s as [|a s]; cbn [split_char]; [now eexists; eexists|].
  destruct (Ascii.eqb a c); [now eexists; eexists|].
  destruct (split_char c s); now eexists; eexists.
Qed.

Lemma split_char_separator (c : ascii) (s : string) :
  has_char c s = true -> exists h x t, split_char c s = h :: x :: t.
Proof.
  induction s as [|a s IH]; cbn [has_char split_char]; [discriminate|].
  destruct (Ascii.eqb a c); cbn [orb].
  - intros _. destruct (split_char_nonempty c s) as (h & t & ->).
    now exists EmptyString, h, t.
  - intros Hs. destruct (IH Hs) as (h & x & t & ->).
    now exists (String a h), x, t.
Qed.

Lemma split_char_pieces (c : ascii) (s : string) :
  Forall (fun x => has_char c x = false) (split_char c s).
Proof.
  induction s as [|a s IH]; cbn [split_char].
  - now constructor.
  - destruct (Ascii.eqb a c) eqn:Ha; [now constructor|].
    destruct (split_char c s) as [|h t]; [now repeat constructor; cbn;
                                             rewrite Ha|].
    inversion IH as [|? ? Hh Ht]; subst. constructor; [|exact Ht].
    cbn [has_char]. now rewrite Ha, Hh.
Qed.

Lemma last_split_append (c : ascii) (p n : string) :
  has_char c n = false ->
  last (split_char c (p ++ String c n)) EmptyString = n.
Proof.
  intros Hn. induction p as [|a p IH]; cbn [append split_char].
  - rewrite Ascii.eqb_refl, (split_char_no_separator c n Hn). reflexivity.
  - destruct (split_char_separator c (p ++ String c n)
                (has_char_separator c p n)) as (h & x & t & Hs).
    rewrite Hs in IH |- *. now destruct (Ascii.eqb a c).
Qed.

Lemma last_segment_no_slash (s : string) :
  has_char "/"%char (last_segment s) = false.
Proof.
  unfold last_segment.
  pose proof (split_char_pieces "/"%char s) as Hall.
  induction Hall as [|x l Hx _ IH]; [reflexivity|].
  destruct l; [exact Hx | exact IH].
Qed.

Lemma finding_resource_name_no_slash (f : pyobj) (n : string) :
  SecurityComandCenterFindingsFilter.finding_resource_name f = Ok n ->
  has_char "/"%char n = false.
Proof.
  unfold SecurityComandCenterFindingsFilter.finding_resource_name.
  destruct (getitem f "finding") as [finding|]; [|discriminate].
  cbn [bind].
  destruct (getitem finding "resourceName") as [[| | |full| |]|];
    try discriminate.
  cbn [bind]. intros [= <-]. apply last_segment_no_slash.
Qed.

(** X16.  A finding is filed under the last segment of its
    ['resourceName']: the part after the last ['/'], the whole name when
    it has none; the name it is filed under never has a ['/']. *)
Theorem finding_filed_under_last_segment (f finding : pyobj)
  (full : string) :
  getitem f "finding" = Ok finding ->
  getitem finding "resourceName" = Ok (PyStr full) ->
  exists n,
    SecurityComandCenterFindingsFilter.finding_resource_name f = Ok n
    /\ has_char "/"%char n = false
    /\ (has_char "/"%char full = false -> n = full)
    /\ (forall p m,
           has_char "/"%char m = false -> full = p ++ "/" ++ m -> n = m).
Proof.
  intros Hf Hn. exists (last_segment full).
  unfold SecurityComandCenterFindingsFilter.finding_resource_name.
  rewrite Hf. cbn [bind]. rewrite Hn. cbn [bind].
  split; [reflexivity|]. split; [apply last_segment_no_slash|]. split.
  - intros Hfull. unfold last_segment.
    now rewrite (split_char_no_separator _ _ Hfull).
  - intros p m Hm ->. apply (last_split_append "/"%char p m Hm).
Qed.

Lemma finding_filed_under_last_segment_witness :
  exists n,
    SecurityComandCenterFindingsFilter.finding_resource_name
      (finding "//storage.googleapis.com/bucket-1" "X") = Ok n
    /\ has_char "/"%char n = false
    /\ (has_char "/"%char "//storage.googleapis.com/bucket-1" = false ->
        n = "//storage.googleapis.com/bucket-1")
    /\ (forall p m,
           has_char "/"%char m = false ->
           "//storage.googleapis.com/bucket-1" = p ++ "/" ++ m -> n = m).
Proof.
  apply (finding_filed_under_last_segment
           (finding "//storage.googleapis.com/bucket-1" "X")
           (PyDict [("resourceName",
                     PyStr "//storage.googleapis.com/bucket-1");
                    ("category", PyStr "X")]));
    reflexivity.
Defined.

(** ** The index of findings *)

Lemma dict_get_none_keys (d : list (string * list pyobj)) (n : string) :
  dict_get String.eqb d n = None -> ~ In n (dict_keys d).
Proof.
  induction d as [|[n0 l0] d IH]; cbn [dict_get dict_keys map fst];
    [tauto|].
  destruct (String.eqb_spec n0 n); [discriminate|].
  intros Hd [Heq|Hin]; [congruence|]. now apply IH.
Qed.

Lemma dict_keys_set_absent (d : list (string * list pyobj)) (n : string)
  (l : list pyobj) :
  dict_get String.eqb d n = None ->
  dict_keys (dict_set String.eqb d n l) = (dict_keys d ++ [n])%list.
Proof.
  induction d as [|[n0 l0] d IH]; cbn [dict_get dict_set]; [reflexivity|].
  destruct (n0 =? n); [discriminate|].
  intros Hd. unfold dict_keys in *. cbn [map fst app]. now rewrite IH.
Qed.

Lemma NoDup_snoc {A : Type} (l : list A) (x : A) :
  NoDup l -> ~ In x l -> NoDup (l ++ [x]).
Proof.
  induction 1 as [|y l Hy Hl IH]; cbn [app]; intros Hx.
  - repeat constructor. tauto.
  - constructor.
    + rewrite in_app_iff. cbn. intros [Hin|[->|[]]]; [tauto|].
      apply Hx. now left.
    + apply IH. intros Hin. apply Hx. now right.
Qed.

Lemma findings_index_invariant_from (fs : list pyobj)
  (s s' : SecurityComandCenterFindingsFilter.self) :
  SecurityComandCenterFindingsFilter.split_by_resource s fs = Ok s' ->
  NoDup (dict_keys (SecurityComandCenterFindingsFilter.findings_by_resource s))
  /\ (forall n l,
         In (n, l) (SecurityComandCenterFindingsFilter.findings_by_resource s)
         -> l <> [] /\ has_char "/"%char n = false) ->
  NoDup (dict_keys (SecurityComandCenterFindingsFilter.findings_by_resource s'))
  /\ (forall n l,
         In (n, l) (SecurityComandCenterFindingsFilter.findings_by_resource s')
         -> l <> [] /\ has_char "/"%char n = false).
Proof.
  revert s; induction fs as [|f fs IH]; intros s;
    cbn [SecurityComandCenterFindingsFilter.split_by_resource].
  - now intros [= ->].
  - destruct (SecurityComandCenterFindingsFilter.finding_resource_name f)
      as [n0|] eqn:Hn0; [|discriminate].
    cbn [bind]. intros Hs [Hnodup Hall]. apply (IH _ Hs).
    cbn [SecurityComandCenterFindingsFilter.findings_by_resource
           SecurityComandCenterFindingsFilter.with_findings_by_resource].
    split.
    + destruct (dict_get String.eqb
                  (SecurityComandCenterFindingsFilter.findings_by_resource s)
                  n0) as [l0|] eqn:Hget.
      * now rewrite (dict_keys_set_present String.eqb _ _ _ _ Hget).
      * rewrite (dict_keys_set_absent _ _ _ Hget).
        apply NoDup_snoc; [exact Hnodup | now apply dict_get_none_keys].
    + intros n l Hin.
      destruct (in_dict_set _ _ _ _ _ _ Hin) as [Hd|[-> Hk]];
        [now apply Hall|].
      split; [now destruct (get_default _ _)|].
      destruct Hk as [->|Hk];
        [|apply String.eqb_eq in Hk; subst n];
        apply (finding_resource_name_no_slash f _ Hn0).
Qed.

(** X17.  The index the findings correlator builds from an empty one has
    one entry per resource name, no entry with an empty list, and no
    name with a ['/'] in it. *)
Theorem findings_index_invariant (fs : list pyobj)
  (s s' : SecurityComandCenterFindingsFilter.self) :
  SecurityComandCenterFindingsFilter.findings_by_resource s = [] ->
  SecurityComandCenterFindingsFilter.split_by_resource s fs = Ok s' ->
  NoDup (dict_keys (SecurityComandCenterFindingsFilter.findings_by_resource s'))
  /\ (forall n l,
         In (n, l) (SecurityComandCenterFindingsFilter.findings_by_resource s')
         -> l <> [] /\ has_char "/"%char n = false).
Proof.
  intros Hempty Hs. apply (findings_index_invariant_from fs s s' Hs).
  rewrite Hempty. split; [constructor | intros n l []].
Qed.

Lemma findings_index_invariant_witness :
  NoDup ["b1"; "b2"]
  /\ (forall n l,
         In (n, l)
           [("b1", [finding "//storage/b1" "X"; finding "p/b1" "Z"]);
            ("b2", [finding "b2" "Y"])] ->
         l <> [] /\ has_char "/"%char n = false).
Proof.
  apply (findings_index_invariant
           [finding "//storage/b1" "X"; finding "b2" "Y"; finding "p/b1" "Z"]
           bucket_filter
           (SecurityComandCenterFindingsFilter.with_findings_by_resource
              bucket_filter
              [("b1", [finding "//storage/b1" "X"; finding "p/b1" "Z"]);
               ("b2", [finding "b2" "Y"])]));
    reflexivity.
Defined.

(** ** From the fetched findings to the decision *)

Lemma findings_split_fields (fs : list pyobj)
  (s s' : SecurityComandCenterFindingsFilter.self) :
  SecurityComandCenterFindingsFilter.split_by_resource s fs = Ok s' ->
  SecurityComandCenterFindingsFilter.data s'
  = SecurityComandCenterFindingsFilter.data s
  /\ SecurityComandCenterFindingsFilter.name s'
     = SecurityComandCenterFindingsFilter.name s.
Proof.
  revert s; induction fs as [|f fs IH]; intros s;
    cbn [SecurityComandCenterFindingsFilter.split_by_resource].
  - now intros [= ->].
  - destruct (SecurityComandCenterFindingsFilter.finding_resource_name f);
      [|discriminate].
    cbn [bind]. intros Hs. apply IH in Hs. exact Hs.
Qed.

Lemma findings_correlated_after_split (fs : list pyobj)
  (s s' : SecurityComandCenterFindingsFilter.self) (r : resource)
  (n : string) :
  SecurityComandCenterFindingsFilter.findings_by_resource s = [] ->
  SecurityComandCenterFindingsFilter.split_by_resource s fs = Ok s' ->
  rget r (SecurityComandCenterFindingsFilter.name s) = Some (PyStr n) ->
  SecurityComandCenterFindingsFilter.correlated s' r
  = Ok (findings_of n fs).
Proof.
  intros Hempty Hs Hn.
  destruct (findings_split_fields fs s s' Hs) as [_ Hname].
  unfold SecurityComandCenterFindingsFilter.correlated, getitem.
  rewrite Hname. unfold rget in Hn. rewrite Hn. cbn [bind].
  cbn [SecurityComandCenterFindingsFilter.index_get]. f_equal.
  pose proof (findings_split_lookup fs s s' n Hs) as Hl.
  rewrite Hempty in Hl. exact Hl.
Qed.

Lemma findings_of_slash (n : string) (fs : list pyobj) :
  has_char "/"%char n = true -> findings_of n fs = [].
Proof.
  intros Hn. unfold findings_of.
  induction fs as [|f fs IH]; cbn [filter]; [reflexivity|].
  destruct (SecurityComandCenterFindingsFilter.finding_resource_name f)
    as [n'|] eqn:Hf; [|exact IH].
  destruct (String.eqb_spec n' n) as [->|_]; [|exact IH].
  apply finding_resource_name_no_slash in Hf. congruence.
Qed.

(** X18.  After the findings are indexed, a resource named [n] is
    correlated with the fetched findings whose ['resourceName'] ends in
    the segment [n], in fetch order: they are appended to its annotation
    list and, with no ['key'] configured, the resource is retained
    exactly when there is one. *)
Theorem fetched_findings_correlated (H : Host) (fs : list pyobj)
  (s s' : SecurityComandCenterFindingsFilter.self) (r : resource)
  (n : string) :
  SecurityComandCenterFindingsFilter.findings_by_resource s = [] ->
  SecurityComandCenterFindingsFilter.split_by_resource s fs = Ok s' ->
  rget r (SecurityComandCenterFindingsFilter.name s) = Some (PyStr n) ->
  findings_container_ok r = true ->
  SecurityComandCenterFindingsFilter.correlated s' r = Ok (findings_of n fs)
  /\ findings_annotation
       (fst (SecurityComandCenterFindingsFilter.process_resource s' r))
     = Some (get_default (findings_annotation r) [] ++ findings_of n fs)%list
  /\ (rget (SecurityComandCenterFindingsFilter.data s) "key" = None ->
      snd (SecurityComandCenterFindingsFilter.process_resource s' r)
      = Ok (0 <? List.length (findings_of n fs))%nat).
Proof.
  intros Hempty Hs Hn Hok.
  pose proof (findings_correlated_after_split fs s s' r n Hempty Hs Hn)
    as Hfound.
  destruct (findings_split_fields fs s s' Hs) as [Hdata _].
  split; [exact Hfound|].
  rewrite (process_resource_correlated s' r _ _ Hfound
             (setdefault_findings_container r Hok)).
  cbn [fst snd]. split.
  - unfold findings_annotation at 1. now rewrite rget_rset_same.
  - intros Hkey. unfold findings_decision. now rewrite Hdata, Hkey.
Qed.

Lemma fetched_findings_correlated_witness :
  snd (@SecurityComandCenterFindingsFilter.process_resource plain_host
         (SecurityComandCenterFindingsFilter.with_findings_by_resource
            bucket_filter
            [("b1", [finding "//storage/b1" "X"; finding "p/b1" "Z"]);
             ("b2", [finding "b2" "Y"])])
         (vm "b1"))
  = Ok true.
Proof.
  apply (fetched_findings_correlated plain_host
           [finding "//storage/b1" "X"; finding "b2" "Y"; finding "p/b1" "Z"]
           bucket_filter
           (SecurityComandCenterFindingsFilter.with_findings_by_resource
              bucket_filter
              [("b1", [finding "//storage/b1" "X"; finding "p/b1" "Z"]);
               ("b2", [finding "b2" "Y"])])
           (vm "b1") "b1");
    reflexivity.
Defined.

(** X19.  A resource whose name has a ['/'] in it is correlated with no
    finding, whatever was fetched: with no ['key'] configured it is
    dropped. *)
Theorem name_with_slash_never_correlated (H : Host) (fs : list pyobj)
  (s s' : SecurityComandCenterFindingsFilter.self) (r : resource)
  (n : string) :
  SecurityComandCenterFindingsFilter.findings_by_resource s = [] ->
  SecurityComandCenterFindingsFilter.split_by_resource s fs = Ok s' ->
  rget r (SecurityComandCenterFindingsFilter.name s) = Some (PyStr n) ->
  has_char "/"%char n = true ->
  findings_container_ok r = true ->
  rget (SecurityComandCenterFindingsFilter.data s) "key" = None ->
  SecurityComandCenterFindingsFilter.correlated s' r = Ok []
  /\ snd (SecurityComandCenterFindingsFilter.process_resource s' r)
     = Ok false.
Proof.
  intros Hempty Hs Hn Hslash Hok Hkey.
  pose proof (findings_correlated_after_split fs s s' r n Hempty Hs Hn)
    as Hfound.
  rewrite (findings_of_slash n fs Hslash) in Hfound.
  destruct (findings_split_fields fs s s' Hs) as [Hdata _].
  split; [exact Hfound|].
  rewrite (process_resource_correlated s' r _ _ Hfound
             (setdefault_findings_container r Hok)).
  cbn [snd]. unfold findings_decision. now rewrite Hdata, Hkey.
Qed.

Lemma name_with_slash_never_correlated_witness :
  snd (@SecurityComandCenterFindingsFilter.process_resource plain_host
         (SecurityComandCenterFindingsFilter.with_findings_by_resource
            bucket_filter
            [("b1", [finding "projects/p/buckets/b1" "X"])])
         (vm "projects/p/buckets/b1"))
  = Ok false.
Proof.
  apply (name_with_slash_never_correlated plain_host
           [finding "projects/p/buckets/b1" "X"]
           bucket_filter
           (SecurityComandCenterFindingsFilter.with_findings_by_resource
              bucket_filter
              [("b1", [finding "projects/p/buckets/b1" "X"])])
           (vm "projects/p/buckets/b1") "projects/p/buckets/b1");
    reflexivity.
Defined.

(** ** A run of the match filter *)

Lemma findings_matched_none (H : Host)
  (s : SecurityComandCenterFindingsFilter.self) (rs : list resource) :
  SecurityComandCenterFindingsFilter.findings_by_resource s = [] ->
  rget (SecurityComandCenterFindingsFilter.data s) "key" = None ->
  (forall r, In r rs ->
     findings_container_ok r = true
     /\ exists v,
         rget r (SecurityComandCenterFindingsFilter.name s) = Some v
         /\ hashable v = true) ->
  SecurityComandCenterFindingsFilter.matched s rs
  = (findings_annotated s rs, Ok []).
Proof.
  intros Hempty Hkey. induction rs as [|r rs IH]; intros Hrs;
    [reflexivity|].
  destruct (Hrs r (or_introl eq_refl)) as (Hok & v & Hv & Hh).
  assert (Hfound : SecurityComandCenterFindingsFilter.correlated s r = Ok []).
  { unfold SecurityComandCenterFindingsFilter.correlated, getitem.
    unfold rget in Hv. rewrite Hv. cbn [bind]. rewrite Hempty.
    now destruct v. }
  cbn [SecurityComandCenterFindingsFilter.matched findings_annotated map].
  rewrite (process_resource_correlated s r _ _ Hfound
             (setdefault_findings_container r Hok)).
  unfold findings_decision. rewrite Hkey.
  cbn [get_default truthy negb List.length Nat.ltb Nat.leb fst].
  fold (findings_annotated s rs).
  rewrite IH by (intros r0 Hr0; apply Hrs; now right).
  reflexivity.
Qed.

(** X20.  A response of the Security Command Center client that has no
    ['listFindingsResults'] entry, or an empty one, is no error: with no
    ['key'] configured every resource is dropped, each with its
    annotation list (created empty when it had none) as it was. *)
Theorem process_without_findings (H : Host)
  (s : SecurityComandCenterFindingsFilter.self)
  (client : string -> string -> result pyobj) (rs : list resource)
  (resource_filter : string) (org : pyobj) (response : pydict) :
  SecurityComandCenterFindingsFilter.get_resource_filter s rs
  = Ok resource_filter ->
  rget (SecurityComandCenterFindingsFilter.data s) "org" = Some org ->
  client ("organizations/" ++ format_arg org ++ "/sources/-") resource_filter
  = Ok (PyDict response) ->
  truthy (get_default (rget response "listFindingsResults") PyNone) = false ->
  rget (SecurityComandCenterFindingsFilter.data s) "key" = None ->
  (forall r, In r rs ->
     findings_container_ok r = true
     /\ exists v,
         rget r (SecurityComandCenterFindingsFilter.name s) = Some v
         /\ hashable v = true) ->
  SecurityComandCenterFindingsFilter.process s client rs
  = (findings_annotated
       (SecurityComandCenterFindingsFilter.with_findings_by_resource s [])
       rs,
     Ok [])
  /\ forall r, In r rs ->
       findings_annotation
         (fst (SecurityComandCenterFindingsFilter.process_resource
                 (SecurityComandCenterFindingsFilter.with_findings_by_resource
                    s [])
                 r))
       = Some (get_default (findings_annotation r) []).
Proof.
  intros Hq Horg Hc Hres Hkey Hrs. split.
  - unfold SecurityComandCenterFindingsFilter.process.
    rewrite Hq. cbn [bind]. unfold getitem.
    fold (rget (SecurityComandCenterFindingsFilter.data s) "org").
    rewrite Horg. cbn [bind]. rewrite Hc. cbn [bind].
    unfold SecurityComandCenterFindingsFilter.list_findings_results.
    rewrite Hres. cbn [negb bind
                         SecurityComandCenterFindingsFilter.split_by_resource].
    now apply findings_matched_none.
  - intros r Hr. destruct (Hrs r Hr) as (Hok & v & Hv & Hh).
    assert (Hfound : SecurityComandCenterFindingsFilter.correlated
                       (SecurityComandCenterFindingsFilter.with_findings_by_resource
                          s [])
                       r = Ok []).
    { unfold SecurityComandCenterFindingsFilter.correlated, getitem.
      unfold rget in Hv. cbn [SecurityComandCenterFindingsFilter.name
                                SecurityComandCenterFindingsFilter.with_findings_by_resource].
      rewrite Hv. cbn [bind]. now destruct v. }
    rewrite (process_resource_correlated _ r _ _ Hfound
               (setdefault_findings_container r Hok)).
    cbn [fst]. unfold findings_annotation at 1.
    now rewrite rget_rset_same, app_nil_r.
Qed.

Lemma process_without_findings_witness :
  @SecurityComandCenterFindingsFilter.process plain_host bucket_filter
    (fun _ _ => Ok (PyDict [("totalSize", PyNum 0)]))
    [vm "bucket-1"; vm "bucket-2"]
  = ([[("name", PyStr "bucket-1"); ("c7n.findings", PyList [])];
      [("name", PyStr "bucket-2"); ("c7n.findings", PyList [])]],
     Ok []).
Proof.
  apply (process_without_findings plain_host bucket_filter
           (fun _ _ => Ok (PyDict [("totalSize", PyNum 0)]))
           [vm "bucket-1"; vm "bucket-2"]
           (join " OR "
              (map (@resource_clause plain_host)
                 [PyStr "bucket-1"; PyStr "bucket-2"]))
           (PyNum 1234) [("totalSize", PyNum 0)]);
    try reflexivity.
  intros r [<-|[<-|[]]]; (split; [reflexivity|]); eexists; split;
    reflexivity.
Defined.

(** X21.  With no ['key'] configured the match evaluator raises in three
    cases only, each leaving the resource as it was: the resource has no
    name field ([KeyError]), its name cannot be hashed ([TypeError]), or
    its ['c7n.findings'] field is there and is not a list
    ([AttributeError]). *)
Theorem match_evaluator_raises (H : Host)
  (s : SecurityComandCenterFindingsFilter.self) (r r' : resource) (e : exn) :
  rget (SecurityComandCenterFindingsFilter.data s) "key" = None ->
  SecurityComandCenterFindingsFilter.process_resource s r = (r', Raise e) ->
  r' = r
  /\ ((rget r (SecurityComandCenterFindingsFilter.name s) = None
       /\ e = KeyError)
      \/ (exists v,
             rget r (SecurityComandCenterFindingsFilter.name s) = Some v
             /\ hashable v = false /\ e = TypeError)
      \/ (exists v,
             rget r "c7n.findings" = Some v
             /\ (forall l, v <> PyList l) /\ e = AttributeError)).
Proof.
  intros Hkey. unfold SecurityComandCenterFindingsFilter.process_resource,
    SecurityComandCenterFindingsFilter.correlated, getitem.
  fold (rget r (SecurityComandCenterFindingsFilter.name s)).
  destruct (rget r (SecurityComandCenterFindingsFilter.name s)) as [v|];
    cbn [bind].
  - destruct (SecurityComandCenterFindingsFilter.index_get _ v)
      as [found|e0] eqn:Hget.
    + destruct (setdefault_cases r "c7n.findings" (PyList []))
        as [(c & Hc & ->)|(Hnone & ->)].
      * destruct c; cbn [extend]; try (intros [= <- <-]; split;
          [reflexivity|]; right; right; eexists; split; [exact Hc|];
          split; [discriminate | reflexivity]).
        rewrite Hkey. cbn [get_default truthy negb]. discriminate.
      * cbn [extend]. rewrite Hkey. cbn [get_default truthy negb].
        discriminate.
    + intros [= <- <-]. split; [reflexivity|]. right; left. exists v.
      split; [reflexivity|].
      destruct v; cbn in Hget; try discriminate;
        now injection Hget as <-.
  - intros [= <- <-]. split; [reflexivity|]. now left.
Qed.

Lemma match_evaluator_raises_witness :
  [("id", PyStr "bucket-1")] = [("id", PyStr "bucket-1")]
  /\ ((rget [("id", PyStr "bucket-1")] "name" = None /\ KeyError = KeyError)
      \/ (exists v,
             rget [("id", PyStr "bucket-1")] "name" = Some v
             /\ hashable v = false /\ KeyError = TypeError)
      \/ (exists v,
             rget [("id", PyStr "bucket-1")] "c7n.findings" = Some v
             /\ (forall l, v <> PyList l) /\ KeyError = AttributeError)).
Proof.
  apply (match_evaluator_raises plain_host bucket_filter_fetched
           [("id", PyStr "bucket-1")] _ KeyError);
    reflexivity.
Defined.
